(** * ETHTokyo Social Security Snap: transaction-introspection pipeline

    A shallow embedding of the three TypeScript sources of the repository:

    - the completion endpoint ([getResponseData], [getContractDetails],
      [getContractFunctionDetails], [getFunctionSourceCode],
      [getGptCompletion]), module [Completion];
    - the Lens profile endpoint ([getDefaultProfile]), module [LensProfile];
    - the wallet plugin ([onTransaction]), module [Snap].

    JavaScript values, exceptions and the observable effects of a run
    (console output, outbound requests, HTTP responses) are modelled in
    module [Js].  An asynchronous function is a computation that yields a
    trace of events and either a value or a thrown exception; [await] is
    the bind of that monad.

    The definitions come first; the properties follow in [StringFacts],
    [EffFacts], [CompletionFacts], [LensProfileFacts] and [SnapFacts]. *)

From Stdlib Require Import String Ascii List Bool Arith ZArith Lia.
From Stdlib Require Import DecimalString.
From Stdlib.Strings Require Import Byte.
Import ListNotations.

Set Warnings "-register-all".

Local Open Scope string_scope.
Local Open Scope list_scope.

(* ===================================================================== *)
(** ** JavaScript values, exceptions, effects *)
(* ===================================================================== *)

Module Js.

(** A JavaScript number, as far as the program inspects one: the sources
    only compare numbers with integer constants and test truthiness. *)
Inductive number :=
| Int (z : Z)
| NonInt
| NaN.

Inductive JsVal :=
| JUndefined
| JNull
| JBool (b : bool)
| JNum (n : number)
| JStr (s : string)
| JArr (items : list JsVal)
| JObj (fields : list (string * JsVal)).

Inductive Exn :=
| ReferenceError (identifier : string)
| TypeError (message : string)
| SyntaxError (message : string)
| Error (message : string)
| Rejected (reason : string).

(** What a run does that the outside can observe. *)
Inductive Event :=
| EvConsoleLog (args : list JsVal)
| EvConsoleError (e : Exn)
| EvManageStateGet
| EvFetch (url : string)
| EvAxiosGet (url : string)
| EvAxiosPost (url : string) (body : JsVal)
| EvApolloQuery (variables : JsVal)
| EvSetHeader (name : string) (value : JsVal)
| EvRespond (status : nat) (body : JsVal).

Inductive Res (A : Type) :=
| Ok (a : A)
| Throw (e : Exn).
Arguments Ok {A} a.
Arguments Throw {A} e.

(** Trace of events, then the completion. *)
Definition Eff (A : Type) : Type := list Event * Res A.

Definition ret {A} (a : A) : Eff A := ([], Ok a).
Definition throw {A} (e : Exn) : Eff A := ([], Throw e).
Definition emit (ev : Event) : Eff unit := ([ev], Ok tt).
Definition lift {A} (r : Res A) : Eff A := ([], r).

Definition bind {A B} (m : Eff A) (k : A -> Eff B) : Eff B :=
  match m with
  | (t, Ok a) => let (t', r) := k a in (t ++ t', r)
  | (t, Throw e) => (t, Throw e)
  end.

(** [try { body } catch (error) { handler error }] *)
Definition try_catch {A} (body : Eff A) (handler : Exn -> Eff A) : Eff A :=
  match body with
  | (t, Ok a) => (t, Ok a)
  | (t, Throw e) => let (t', r) := handler e in (t ++ t', r)
  end.

Definition trace {A} (m : Eff A) : list Event := fst m.
Definition outcome {A} (m : Eff A) : Res A := snd m.

Declare Scope eff_scope.
Delimit Scope eff_scope with eff.
Notation "x <- m ;; k" := (bind m (fun x => k))
  (at level 61, m at next level, right associativity) : eff_scope.
Notation "m ;;; k" := (bind m (fun _ => k))
  (at level 61, right associativity) : eff_scope.

(** ToBoolean *)
Definition truthy (v : JsVal) : bool :=
  match v with
  | JUndefined | JNull => false
  | JBool b => b
  | JNum (Int z) => negb (Z.eqb z 0)
  | JNum NonInt => true
  | JNum NaN => false
  | JStr s => negb (String.eqb s "")
  | JArr _ | JObj _ => true
  end.

Fixpoint assoc (k : string) (fields : list (string * JsVal)) : option JsVal :=
  match fields with
  | [] => None
  | (k', v) :: rest => if String.eqb k k' then Some v else assoc k rest
  end.

(** [v.name] for the own data properties the sources read (none of them
    is a prototype member): a TypeError on [null] and [undefined],
    [undefined] when the property is absent. *)
Definition get_prop (v : JsVal) (name : string) : Res JsVal :=
  match v with
  | JUndefined | JNull =>
      Throw (TypeError ("Cannot read properties of null or undefined (reading '" ++ name ++ "')"))
  | JObj fields => match assoc name fields with Some x => Ok x | None => Ok JUndefined end
  | _ => Ok JUndefined
  end.

(** [v[0]]: first element of an array, first character of a string. *)
Definition get_first (v : JsVal) : Res JsVal :=
  match v with
  | JUndefined | JNull =>
      Throw (TypeError "Cannot read properties of null or undefined (reading '0')")
  | JArr items => Ok (nth 0 items JUndefined)
  | JStr (String c _) => Ok (JStr (String c ""))
  | JObj fields => match assoc "0" fields with Some x => Ok x | None => Ok JUndefined end
  | _ => Ok JUndefined
  end.

(** [a === "literal"] *)
Definition strict_eq_str (v : JsVal) (s : string) : bool :=
  match v with
  | JStr s' => String.eqb s' s
  | _ => false
  end.

Definition nat_to_string (n : nat) : string :=
  NilEmpty.string_of_uint (Nat.to_uint n).

(* --------------------------------------------------------------------- *)
(** *** Strings: [String.prototype.split], substrings *)
(* --------------------------------------------------------------------- *)

Fixpoint drop (n : nat) (s : string) : string :=
  match n, s with
  | O, _ => s
  | S k, String _ s' => drop k s'
  | S _, EmptyString => EmptyString
  end.

(** [split_from sep skip cur s]: [cur] is the segment being collected,
    [skip] the number of characters of a separator just recognised that
    are still to be passed over. *)
Fixpoint split_from (sep : string) (skip : nat) (cur : string) (s : string)
  : list string :=
  match s with
  | EmptyString => [cur]
  | String c s' =>
      match skip with
      | S k => split_from sep k cur s'
      | O =>
          if prefix sep s
          then cur :: split_from sep (String.length sep - 1) "" s'
          else split_from sep 0 (cur ++ String c "")%string s'
      end
  end.

Fixpoint chars (s : string) : list string :=
  match s with
  | EmptyString => []
  | String c s' => String c "" :: chars s'
  end.

(** [s.split(sep)]: the pieces of [s] between the left-to-right,
    non-overlapping occurrences of [sep]. *)
Definition split (s sep : string) : list string :=
  match sep with
  | EmptyString => chars s
  | _ => split_from sep 0 "" s
  end.

(** [l.join(sep)] *)
Fixpoint join (sep : string) (l : list string) : string :=
  match l with
  | [] => ""
  | [x] => x
  | x :: rest => (x ++ sep ++ join sep rest)%string
  end.

Definition concat_all (l : list string) : string :=
  fold_right String.append "" l.

(** [t] occurs in [s] as a contiguous block. *)
Definition substring_of (t s : string) : Prop :=
  exists pre post, s = (pre ++ t ++ post)%string.

Fixpoint is_substring (t s : string) : bool :=
  prefix t s ||
  match s with
  | EmptyString => false
  | String _ s' => is_substring t s'
  end.

(** [t] is obtained from [s] by deleting characters. *)
Inductive subsequence : string -> string -> Prop :=
| subseq_nil : subsequence "" ""
| subseq_skip c t s : subsequence t s -> subsequence t (String c s)
| subseq_keep c t s : subsequence t s -> subsequence (String c t) (String c s).

(* --------------------------------------------------------------------- *)
(** *** Observing a trace *)
(* --------------------------------------------------------------------- *)

(** The requests of a run to the completion service. *)
Fixpoint completion_requests (t : list Event) : list (string * JsVal) :=
  match t with
  | [] => []
  | EvAxiosPost url body :: rest => (url, body) :: completion_requests rest
  | _ :: rest => completion_requests rest
  end.

(** The errors a run wrote to the console. *)
Fixpoint logged_errors (t : list Event) : list Exn :=
  match t with
  | [] => []
  | EvConsoleError e :: rest => e :: logged_errors rest
  | _ :: rest => logged_errors rest
  end.

(** The responses a run sent. *)
Fixpoint responses (t : list Event) : list (nat * JsVal) :=
  match t with
  | [] => []
  | EvRespond status body :: rest => (status, body) :: responses rest
  | _ :: rest => responses rest
  end.

(** The network lookups of a run of the plugin. *)
Fixpoint lookups (t : list Event) : list string :=
  match t with
  | [] => []
  | EvFetch url :: rest => url :: lookups rest
  | _ :: rest => lookups rest
  end.

End Js.

(* ===================================================================== *)
(** ** The completion endpoint *)
(* ===================================================================== *)

Module Completion.
Import Js.
Local Open Scope string_scope.
Local Open Scope eff_scope.

Record AxiosResponse := { status : nat; data : JsVal }.

Record ParamType := { ptype : string }.

(** An ABI function fragment as the ABI library exposes it. *)
Record FunctionFragment := {
  name : string;
  inputs : list ParamType;
  selector : string
}.

Record TransactionDescription := {
  td_name : string;
  td_args : list JsVal;
  td_fragment : FunctionFragment
}.

(** The platform and the libraries the endpoint calls into.  They are not
    part of the repository; the endpoint is modelled over any
    implementation of them. *)
Record Runtime := {
  (** [process.env.NAME] *)
  process_env : string -> JsVal;
  (** [axios.get(uri)], [axios.post(uri, data, config)]: the response, or
      the rejection of the request *)
  axios_get : string -> Res AxiosResponse;
  axios_post : string -> JsVal -> JsVal -> Res AxiosResponse;
  (** [Number(v)], and ToString as applied by template literals and [+=] *)
  ToNumber : JsVal -> number;
  ToString : JsVal -> string;
  JSON_parse : JsVal -> Res JsVal;
  JSON_stringify : JsVal -> string;
  (** [new ethers.Interface(abi)]: the function fragments of the ABI *)
  Interface_functions : JsVal -> Res (list FunctionFragment);
  (** [getBytes(data)]: the bytes of a hex string *)
  getBytes : JsVal -> Res (list byte);
  (** the coder of one parameter type: the decoded value and the rest of
      the data *)
  coder_decode : ParamType -> list byte -> Res (JsVal * list byte);
  (** [new RegExp(source).test(subject)] *)
  RegExp_test : string -> string -> Res bool
}.

Record Query := {
  contractAddress : JsVal;
  inputData : JsVal;
  chainId : JsVal
}.

Record ContractDetails := {
  contractName : JsVal;
  contractCode : JsVal;
  abi : JsVal
}.

Record FunctionDetails := {
  functionName : string;
  functionArgs : list JsVal;
  functionAbi : JsVal
}.

Definition warning_not_verified : string :=
  "【WARNING】 The safety of the function you are trying to execute cannot be confirmed because it has not verified.".

Definition generic_error : JsVal :=
  JObj [("error", JStr "An Error Occurred")].

(* --------------------------------------------------------------------- *)
(** *** The ABI library *)
(* --------------------------------------------------------------------- *)

Definition hex_digit (n : N) : ascii :=
  match n with
  | 0%N => "0" | 1%N => "1" | 2%N => "2" | 3%N => "3"
  | 4%N => "4" | 5%N => "5" | 6%N => "6" | 7%N => "7"
  | 8%N => "8" | 9%N => "9" | 10%N => "a" | 11%N => "b"
  | 12%N => "c" | 13%N => "d" | 14%N => "e" | _ => "f"
  end%char.

Fixpoint hex_of_bytes (bs : list byte) : string :=
  match bs with
  | [] => ""
  | b :: rest =>
      let n := Byte.to_N b in
      String (hex_digit (N.div n 16)) (String (hex_digit (N.modulo n 16)) (hex_of_bytes rest))
  end.

(** [hexlify(bytes)] *)
Definition hexlify (bs : list byte) : string := "0x" ++ hex_of_bytes bs.

Section Library.
Variable rt : Runtime.

(** Modelled from the spec: the ABI library's tuple decoder (ethers is a
    dependency, not under src/).  The data is decoded "per each input's
    type": one coder per declared input, in order, each consuming its
    part of the data; a coder that fails aborts the decoding. *)
Fixpoint unpack (coders : list ParamType) (data : list byte) : Res (list JsVal) :=
  match coders with
  | [] => Ok []
  | c :: rest =>
      match coder_decode rt c data with
      | Throw e => Throw e
      | Ok (v, data') =>
          match unpack rest data' with
          | Throw e => Throw e
          | Ok vs => Ok (v :: vs)
          end
      end
  end.

(** Modelled from the spec: the ABI library's [Interface.getFunction] on a
    selector (ethers is a dependency, not under src/): the fragment whose
    selector equals the given one, if any. *)
Definition getFunction (fragments : list FunctionFragment) (key : string)
  : option FunctionFragment :=
  find (fun f => String.eqb key (selector f)) fragments.

(** No fragment has the selector [key]. *)
Definition no_selector_match (fragments : list FunctionFragment) (key : string) : bool :=
  forallb (fun f => negb (String.eqb key (selector f))) fragments.

(** Modelled from the spec: the ABI library's [Interface.parseTransaction]
    (ethers is a dependency, not under src/).  The selector is the first
    4 bytes of the call data; when no fragment has it the result is
    [null], otherwise the remaining bytes are decoded against the
    fragment's inputs. *)
Definition parseTransaction (fragments : list FunctionFragment) (data : JsVal)
  : Res (option TransactionDescription) :=
  match getBytes rt data with
  | Throw e => Throw e
  | Ok bytes =>
      match getFunction fragments (hexlify (firstn 4 bytes)) with
      | None => Ok None
      | Some fragment =>
          match unpack (inputs fragment) (skipn 4 bytes) with
          | Throw e => Throw e
          | Ok args =>
              Ok (Some {| td_name := name fragment;
                          td_args := args;
                          td_fragment := fragment |})
          end
      end
  end.

End Library.

(* --------------------------------------------------------------------- *)
(** *** The regular expression of the snippet extractor *)
(* --------------------------------------------------------------------- *)

Definition is_word_char (c : ascii) : bool :=
  let n := nat_of_ascii c in
  (((48 <=? n) && (n <=? 57)) || ((65 <=? n) && (n <=? 90))
   || ((97 <=? n) && (n <=? 122)) || (n =? 95))%nat.

Fixpoint word_chars (s : string) : bool :=
  match s with
  | EmptyString => true
  | String c s' => is_word_char c && word_chars s'
  end.

Definition line_feed : string := String (ascii_of_nat 10) "".
Definition carriage_return : string := String (ascii_of_nat 13) "".
(** U+2028 and U+2029 in UTF-8 *)
Definition line_separator : string :=
  String (ascii_of_nat 226) (String (ascii_of_nat 128) (String (ascii_of_nat 168) "")).
Definition paragraph_separator : string :=
  String (ascii_of_nat 226) (String (ascii_of_nat 128) (String (ascii_of_nat 169) "")).

(** The line terminators, which [.] does not match. *)
Definition line_terminators : list string :=
  [line_feed; carriage_return; line_separator; paragraph_separator].

(** A line terminator starts [s]. *)
Definition line_terminator_at (s : string) : bool :=
  existsb (fun t => prefix t s) line_terminators.

(** [/^.*{/]: an opening brace before the end of the line. *)
Fixpoint brace_on_line (s : string) : bool :=
  match s with
  | EmptyString => false
  | String c s' =>
      if Ascii.eqb c "{" then true
      else if line_terminator_at s then false
      else brace_on_line s'
  end.

(** [/(w.*{)/.test(item)] for a [w] of word characters, which the
    pattern takes literally: [w] occurs in [item] and an opening brace
    follows it on the same line. *)
Fixpoint name_then_brace (w item : string) : bool :=
  (prefix w item && brace_on_line (drop (String.length w) item))
  || match item with
     | EmptyString => false
     | String _ item' => name_then_brace w item'
     end.

(** No line terminator in [s]. *)
Definition on_one_line (s : string) : Prop :=
  forall t, In t line_terminators -> ~ substring_of t s.

(** [w] occurs in [item], and an opening brace follows it on the same
    line. *)
Definition name_before_brace (w item : string) : Prop :=
  exists pre mid post,
    item = pre ++ w ++ mid ++ "{" ++ post /\ on_one_line mid.

Section Endpoint.
Variable rt : Runtime.

(** [new RegExp(`(${functionName}.*{)`).test(item)].  A name of word
    characters has no special meaning in the pattern; any other name is
    left to the engine of the runtime. *)
Definition pattern_test (functionName item : string) : Res bool :=
  if word_chars functionName
  then Ok (name_then_brace functionName item)
  else RegExp_test rt ("(" ++ functionName ++ ".*{)") item.

(* --------------------------------------------------------------------- *)
(** *** The endpoint's functions *)
(* --------------------------------------------------------------------- *)

(** [case z:] of a [switch] on a number: strict equality. *)
Definition case_is (n : number) (z : Z) : bool :=
  match n with
  | Int z' => Z.eqb z' z
  | _ => false
  end.

Definition getContractDetailsApiEndpoint (chainId : number) (contractAddress : JsVal)
  : Eff (option string) :=
  let address := ToString rt contractAddress in
  if case_is chainId 1 then
    let apiKey := ToString rt (process_env rt "ETHERSCAN_API_KEY") in
    ret (Some ("https://api.etherscan.io/api?module=contract&action=getsourcecode&address="
               ++ address ++ "&apikey=" ++ apiKey))
  else if case_is chainId 5 then
    let apiKey := ToString rt (process_env rt "ETHERSCAN_API_KEY") in
    ret (Some ("https://api-goerli.etherscan.io/api?module=contract&action=getsourcecode&address="
               ++ address ++ "&apikey=" ++ apiKey))
  else if case_is chainId 137 then
    let apiKey := ToString rt (process_env rt "POLYGONSCAN_API_KEY") in
    ret (Some ("https://api.polygonscan.com/api?module=contract&action=getsourcecode&address="
               ++ address ++ "&apikey=" ++ apiKey))
  else if case_is chainId 59140 then
    ret (Some ("https://explorer.goerli.linea.build/api?module=contract&action=getsourcecode&address="
               ++ address))
  else if case_is chainId 80001 then
    let apiKey := ToString rt (process_env rt "POLYGONSCAN_API_KEY") in
    ret (Some ("https://api-testnet.polygonscan.com/api?module=contract&action=getsourcecode&address="
               ++ address ++ "&apikey=" ++ apiKey))
  else
    emit (EvConsoleLog [JStr "ChainId not supported."]) ;;;
    ret None.

(** [false] is [None]. *)
Definition getContractDetails (chainId : number) (contractAddress : JsVal)
  : Eff (option ContractDetails) :=
  apiUri <- getContractDetailsApiEndpoint chainId contractAddress ;;
  match apiUri with
  | None => ret None
  | Some uri =>
      emit (EvAxiosGet uri) ;;;
      response <- lift (axios_get rt uri) ;;
      result <- lift (get_prop (data response) "result") ;;
      if negb (truthy result) then ret None else
      first <- lift (get_first result) ;;
      if negb (truthy first) then ret None else
      contractName <- lift (get_prop first "ContractName") ;;
      contractCode <- lift (get_prop first "SourceCode") ;;
      abi <- lift (get_prop first "ABI") ;;
      if negb (truthy contractName) || negb (truthy contractCode) || negb (truthy abi)
      then ret None
      else ret (Some {| contractName := contractName;
                        contractCode := contractCode;
                        abi := abi |})
  end.

(** [items.find(item => item.type === "function" && item.name === functionName)] *)
Fixpoint find_function_item (functionName : string) (items : list JsVal)
  : Res JsVal :=
  match items with
  | [] => Ok JUndefined
  | item :: rest =>
      match get_prop item "type" with
      | Throw e => Throw e
      | Ok ty =>
          if strict_eq_str ty "function" then
            match get_prop item "name" with
            | Throw e => Throw e
            | Ok nm =>
                if strict_eq_str nm functionName then Ok item
                else find_function_item functionName rest
            end
          else find_function_item functionName rest
      end
  end.

Definition getContractFunctionDetails (inputData : JsVal) (contractABI : JsVal)
  : Eff FunctionDetails :=
  contractInterface <- lift (Interface_functions rt contractABI) ;;
  decodedFunctionData <- lift (parseTransaction rt contractInterface inputData) ;;
  match decodedFunctionData with
  | None =>
      ret {| functionName := ""; functionArgs := []; functionAbi := JObj [] |}
  | Some description =>
      let functionName := td_name description in
      let functionArgs := td_args description in
      arrContractABI <- lift (JSON_parse rt contractABI) ;;
      found <- match arrContractABI with
               | JArr items => lift (find_function_item functionName items)
               | _ => throw (TypeError "arrContractABI.find is not a function")
               end ;;
      functionAbi <- (if negb (truthy found)
                      then emit (EvConsoleLog [JStr ("Function '" ++ ToString rt found
                                                     ++ "' not found in ABI.")]) ;;;
                           ret (JObj [])
                      else ret found) ;;
      ret {| functionName := functionName;
             functionArgs := functionArgs;
             functionAbi := functionAbi |}
  end.

(** The body of the [forEach] callback: the snippet collected so far and
    the next segment. *)
Definition collect_matching (functionName : string)
  (functionSourceCode : string) (item : string) : Res string :=
  match pattern_test functionName item with
  | Throw e => Throw e
  | Ok true => Ok (functionSourceCode ++ item)
  | Ok false => Ok functionSourceCode
  end.

Fixpoint forEach (functionName : string) (stringArray : list string)
  (functionSourceCode : string) : Res string :=
  match stringArray with
  | [] => Ok functionSourceCode
  | item :: rest =>
      match collect_matching functionName functionSourceCode item with
      | Throw e => Throw e
      | Ok functionSourceCode' => forEach functionName rest functionSourceCode'
      end
  end.

Definition getFunctionSourceCode (contractCode : string) (functionName : string)
  : Eff string :=
  let delimiter := "function" in
  let stringArray := split contractCode delimiter in
  functionSourceCode <- lift (forEach functionName stringArray "") ;;
  (if String.eqb functionSourceCode ""
   then emit (EvConsoleLog [JStr ("Function '" ++ functionName
                                  ++ "' not found in contract code.")])
   else ret tt) ;;;
  ret functionSourceCode.

Definition prompt (contractAddress contractName : JsVal)
  (functionSourceCode : string) (details : FunctionDetails) : string :=
  let functionAbiString := JSON_stringify rt (functionAbi details) in
  "・ContractAddress: " ++ ToString rt contractAddress
  ++ String (ascii_of_nat 10) "・ContractName: " ++ ToString rt contractName
  ++ String (ascii_of_nat 10) "・FunctionName: " ++ functionName details
  ++ String (ascii_of_nat 10) "・FunctionArgs: " ++ ToString rt (JArr (functionArgs details))
  ++ String (ascii_of_nat 10) "・FunctionABI: " ++ functionAbiString
  ++ String (ascii_of_nat 10) "・FunctionSourceCode: " ++ functionSourceCode
  ++ String (ascii_of_nat 10) "Please tell me what the above smart contract executes.".

Definition getGptCompletion (contractAddress contractName : JsVal)
  (functionSourceCode : string) (contractFunctionDetails : FunctionDetails)
  : Eff JsVal :=
  let apiKey := ToString rt (process_env rt "GPT_API_KEY") in
  let apiEndpoint := ToString rt (process_env rt "GPT_API_ENDPOINT") in
  let apiUri := apiEndpoint ++ "/v1/chat/completions" in
  let headers := JObj [("Content-Type", JStr "application/json");
                       ("Authorization", JStr ("Bearer " ++ apiKey))] in
  let content := prompt contractAddress contractName functionSourceCode
                        contractFunctionDetails in
  let data_ := JObj [("model", JStr "gpt-3.5-turbo");
                     ("messages", JArr [JObj [("role", JStr "user");
                                              ("content", JStr content)]])] in
  emit (EvAxiosPost apiUri data_) ;;;
  response <- lift (axios_post rt apiUri data_ (JObj [("headers", headers)])) ;;
  if negb (status response =? 200)%nat
  then throw (Error "Failed to get GPT completion.")
  else
    choices <- lift (get_prop (data response) "choices") ;;
    choice <- lift (get_first choices) ;;
    message <- lift (get_prop choice "message") ;;
    lift (get_prop message "content").

(** The [try] block of [getResponseData]. *)
Definition getResponseData_try (strContractAddress strInputData : JsVal)
  (chainIdNumber : number) : Eff JsVal :=
  let ResponseData := "" in
  contractDetails <- getContractDetails chainIdNumber strContractAddress ;;
  match contractDetails with
  | None =>
      let ResponseData := ResponseData ++ warning_not_verified in
      ret (JStr ResponseData)
  | Some contractDetails =>
      contractFunctionDetails <-
        getContractFunctionDetails strInputData (abi contractDetails) ;;
      functionSourceCode <-
        match contractCode contractDetails with
        | JStr code => getFunctionSourceCode code (functionName contractFunctionDetails)
        | _ => throw (TypeError "contractCode.split is not a function")
        end ;;
      completion <- getGptCompletion strContractAddress (contractName contractDetails)
                                     functionSourceCode contractFunctionDetails ;;
      let ResponseData := ResponseData ++ ToString rt completion in
      ret (JStr ResponseData)
  end.

Definition getResponseData (request : Query) : Eff JsVal :=
  let strContractAddress := contractAddress request in
  let strInputData := inputData request in
  let chainIdNumber := ToNumber rt (chainId request) in
  try_catch
    (getResponseData_try strContractAddress strInputData chainIdNumber)
    (fun error =>
       emit (EvConsoleError error) ;;;
       ret generic_error).

(** The default export: the request handler. *)
Definition handler (request : Query) : Eff unit :=
  responseData <- getResponseData request ;;
  emit (EvRespond 200 (JObj [("data", responseData)])).

(** What is taken from a list of segments for a name of word characters. *)
Definition taken (functionName : string) (segments : list string) : string :=
  concat_all (filter (name_then_brace functionName) segments).

(** The segments that the callback of [getFunctionSourceCode] adds. *)
Definition keeps (functionName item : string) : bool :=
  match pattern_test functionName item with
  | Ok true => true
  | _ => false
  end.

End Endpoint.

(* --------------------------------------------------------------------- *)
(** *** The snippet extractor as the specification words it *)
(* --------------------------------------------------------------------- *)

(** "Test whether it starts with functionName followed eventually by an
    opening brace." *)
Definition starts_with_name_then_brace (functionName segment : string) : bool :=
  prefix functionName segment
  && is_substring "{" (drop (String.length functionName) segment).

(** "Split sourceText on the literal keyword; concatenate all matching
    segments." *)
Definition extractSourceSnippet_spec (sourceText functionName : string) : string :=
  concat_all (filter (starts_with_name_then_brace functionName)
                     (split sourceText "function")).

End Completion.

(* ===================================================================== *)
(** ** The Lens profile endpoint *)
(* ===================================================================== *)

Module LensProfile.
Import Js.
Local Open Scope string_scope.
Local Open Scope eff_scope.

Record Runtime := {
  (** [apolloClient.query({ query: DefaultProfileDocument, variables })]:
      the query result, or the rejection of the query *)
  apollo_query : JsVal -> Res JsVal
}.

Record Request := {
  method : string;
  walletAddress : JsVal
}.

Section Endpoint.
Variable rt : Runtime.

Definition getDefaultProfileRequest (request : JsVal) : Eff JsVal :=
  let variables := JObj [("request", request)] in
  emit (EvApolloQuery variables) ;;;
  result <- lift (apollo_query rt variables) ;;
  data <- lift (get_prop result "data") ;;
  lift (get_prop data "defaultProfile").

Definition getDefaultProfile (req : Request) : Eff unit :=
  let walletAddress := walletAddress req in
  result <- getDefaultProfileRequest (JObj [("ethereumAddress", walletAddress)]) ;;
  emit (EvConsoleLog [JStr "profiles: result"; result]) ;;;
  let data :=
    if strict_eq_str walletAddress "0xd19B53464bBD3289823b278efb0461a903271004"
    then JObj [("handle", JStr "yusaka.test")]
    else JObj [("handle", JStr "sakasaka.test")] in
  emit (EvRespond 200 (JObj [("data", data)])).

(** A call that is not awaited: its events happen, its rejection is
    nobody's. *)
Definition detached {A} (m : Eff A) : Eff unit := (trace m, Ok tt).

Definition handler (req : Request) : Eff unit :=
  if String.eqb (method req) "GET"
  then detached (getDefaultProfile req)
  else
    emit (EvSetHeader "Allow" (JArr [JStr "GET"])) ;;;
    emit (EvRespond 405 (JStr ("Method " ++ method req ++ " Not Allowed"))).

End Endpoint.

Definition expected_body (walletAddress : JsVal) : JsVal :=
  JObj [("data",
         JObj [("handle",
                JStr (if strict_eq_str walletAddress "0xd19B53464bBD3289823b278efb0461a903271004"
                      then "yusaka.test" else "sakasaka.test"))])].

End LensProfile.

(* ===================================================================== *)
(** ** The wallet plugin *)
(* ===================================================================== *)

Module Snap.
Import Js.
Local Open Scope string_scope.
Local Open Scope eff_scope.

Record FetchResponse := {
  ok : bool;
  status : nat;
  json : Res JsVal
}.

(** The wallet that runs the plugin, and the network behind [fetch]. *)
Record Host := {
  (** the properties of the realm's global object, which an identifier
      that no scope declares is looked up in *)
  global : string -> option JsVal;
  (** the plugin's stored state: what [snap_manageState] with operation
      [get] answers, [null] when nothing was stored *)
  stored_state : JsVal;
  (** [fetch(url)]: the response, or the rejection of the request *)
  fetch : string -> Res FetchResponse;
  (** when the i-th promise handed to [Promise.all] settles *)
  settles_at : nat -> nat
}.

(** The fields of the transaction that the handler reads, each after
    [?.toString()]: [None] is [undefined]. *)
Record Transaction := {
  from : option string;
  to : option string;
  data : option string
}.

Inductive Component :=
| heading (s : string)
| text (v : JsVal)
| copyable (s : string)
| divider
| panel (children : list Component).

Record Insight := { content : Component }.

Definition baseURL : string :=
  "https://eth-tokyo-social-security-snap-app.vercel.app/api".

(** ToString of a possibly undefined string, as in a template literal. *)
Definition template (o : option string) : string :=
  match o with
  | Some s => s
  | None => "undefined"
  end.

(** [!s] for a possibly undefined string *)
Definition missing (o : option string) : bool :=
  match o with
  | Some s => String.eqb s ""
  | None => true
  end.

Definition earlier {A} (x y : nat * A) : nat * A :=
  if (fst y <? fst x)%nat then y else x.

(** The rejection that settles first, the one of lowest index among
    those that settle together. *)
Fixpoint first_rejection {A} (i : nat) (settles : nat -> nat) (rs : list (Res A))
  : option (nat * Exn) :=
  match rs with
  | [] => None
  | Ok _ :: rest => first_rejection (S i) settles rest
  | Throw e :: rest =>
      match first_rejection (S i) settles rest with
      | None => Some (settles i, e)
      | Some later => Some (earlier (settles i, e) later)
      end
  end.

Fixpoint fulfilled {A} (rs : list (Res A)) : list A :=
  match rs with
  | [] => []
  | Ok a :: rest => a :: fulfilled rest
  | Throw _ :: rest => fulfilled rest
  end.

(** [Promise.all(promises)].  The promises are those of calls already
    made: every call has run up to its first [await], so the events of
    all of them are in the trace whatever their completions.  The result
    is the array of the values when every promise is fulfilled, and the
    first rejection otherwise. *)
Definition Promise_all {A} (settles : nat -> nat) (promises : list (Eff A))
  : Eff (list A) :=
  let results := map outcome promises in
  (List.concat (map trace promises),
   match first_rejection 0 settles results with
   | Some (_, e) => Throw e
   | None => Ok (fulfilled results)
   end).

Section Plugin.
Variable host : Host.

(** Reading an identifier that is not declared in any enclosing scope:
    the property of the global object, a ReferenceError when there is
    none. *)
Definition read_undeclared (identifier : string) : Res JsVal :=
  match global host identifier with
  | Some v => Ok v
  | None => Throw (ReferenceError identifier)
  end.

(** The common body of the four lookups: the request, the status check,
    the JSON body. *)
Definition fetch_json (url : string) : Eff JsVal :=
  emit (EvFetch url) ;;;
  response <- lift (fetch host url) ;;
  if negb (ok response)
  then throw (Error ("HTTP error! Status: " ++ nat_to_string (status response)))
  else lift (json response).

Definition getLensProfile (walletAddress : string) : Eff JsVal :=
  fetch_json (baseURL ++ "/lens/profile?walletAddress=" ++ walletAddress).

Definition getLensFollowing (walletAddress : string) : Eff JsVal :=
  fetch_json (baseURL ++ "/lens/following?walletAddress=" ++ walletAddress).

Definition getLensApprovedAddressList
  (walletAddress contractAddress inputData chainId : string) : Eff JsVal :=
  fetch_json (baseURL ++ "/lens/following?walletAddress=" ++ walletAddress
              ++ "&contractAddress=" ++ contractAddress
              ++ "&inputData=" ++ inputData
              ++ "&chainId=" ++ chainId).

Definition getGptCompletion (contractAddress inputData chainId : string)
  : Eff JsVal :=
  fetch_json (baseURL ++ "/gpt/completion?contractAddress=" ++ contractAddress
              ++ "&inputData=" ++ inputData
              ++ "&chainId=" ++ chainId).

Definition not_human : Insight :=
  {| content := panel [ heading "Not a unique human!!";
                        text (JStr "Please prove that you are a unique human.");
                        copyable "https://eth-tokyo-social-security-snap-app.vercel.app" ] |}.

Definition insights (handle lensApprovedAddressList completion : JsVal) : Insight :=
  {| content := panel [ heading "Lens Insights🌿";
                        divider;
                        text (JStr "LensProfile:");
                        text handle;
                        text (JStr "LensFollowingExecution:");
                        text lensApprovedAddressList;
                        heading "GPT Insights🌐";
                        divider;
                        text completion ] |}.

Definition onTransaction (chainId : string) (transaction : Transaction)
  : Eff Insight :=
  emit EvManageStateGet ;;;
  let data_ := stored_state host in
  worldId <- lift (read_undeclared "worldId") ;;
  emit (EvConsoleLog [JStr "worldId"; worldId]) ;;;
  if negb (truthy data_) then ret not_human else
  let myWalletAddress := from transaction in
  let contractAddress := to transaction in
  let inputData := data transaction in
  if missing myWalletAddress || missing contractAddress || missing inputData
     || String.eqb chainId ""
  then throw (Error "Missing required parameters")
  else
    let extractedChainId := nth_error (split chainId ":") 1 in
    results <- Promise_all (settles_at host)
      [ getLensProfile (template myWalletAddress);
        getLensApprovedAddressList (template myWalletAddress)
                                   (template contractAddress)
                                   (template inputData)
                                   (template extractedChainId);
        getGptCompletion (template contractAddress) (template inputData)
                         (template extractedChainId) ] ;;
    let lensProfile := nth 0 results JUndefined in
    let lensApprovedAddressList := nth 1 results JUndefined in
    let gptCompletion := nth 2 results JUndefined in
    let isVerifiedWorldId := false in
    if negb isVerifiedWorldId then ret not_human else
    profile <- lift (get_prop lensProfile "data") ;;
    handle <- lift (get_prop profile "handle") ;;
    completion <- lift (get_prop gptCompletion "data") ;;
    ret (insights handle lensApprovedAddressList completion).

End Plugin.

End Snap.

(* ===================================================================== *)
(** ** The wallet plugin: the RPC handler *)
(* ===================================================================== *)

Module SnapRpc.
Import Js.
Local Open Scope string_scope.

Record RpcRequest := {
  method : string;
  params : JsVal
}.

(** The [params] of a [snap_manageState] request. *)
Inductive ManageState :=
| Update (newState : JsVal)
| Get.

(** The wallet behind [snap.request].  It is not part of the repository,
    and the handler is modelled over any wallet: for a request and the
    state the wallet holds, what it answers (a value or a rejection) and
    the state it holds afterwards. *)
Record Wallet := {
  snap_request : ManageState -> JsVal -> Res JsVal * JsVal
}.

(** A run of the handler: the requests it made to the wallet, what it
    returns or throws, and the state the wallet holds afterwards. *)
Record Run := {
  asked : list ManageState;
  result : Res JsVal;
  held : JsVal
}.

Section Handler.
Variable wallet : Wallet.

(** [return await snap.request({ method: 'snap_manageState', params })] *)
Definition forward (request : ManageState) (state : JsVal) : Run :=
  let (answer, state') := snap_request wallet request state in
  {| asked := [request]; result := answer; held := state' |}.

(** [onRpcRequest], the wallet holding [state]. *)
Definition onRpcRequest (state : JsVal) (request : RpcRequest) : Run :=
  if String.eqb (method request) "setData" then
    match get_prop (params request) "worldId" with
    | Throw e => {| asked := []; result := Throw e; held := state |}
    | Ok worldId => forward (Update (JObj [("worldId", worldId)])) state
    end
  else if String.eqb (method request) "getData" then
    forward Get state
  else {| asked := []; result := Throw (Error "Method not found."); held := state |}.

End Handler.

Definition setData (params : JsVal) : RpcRequest :=
  {| method := "setData"; params := params |}.

Definition getData (params : JsVal) : RpcRequest :=
  {| method := "getData"; params := params |}.

End SnapRpc.

(* ===================================================================== *)
(** ** The wallet plugin: the addresses of its lookups *)
(* ===================================================================== *)

Module SnapParts.
Import Js Snap.
Local Open Scope string_scope.

(** The addresses that [onTransaction] asks, in the order of the calls. *)
Definition lookup_urls (walletAddress contractAddress inputData chainId : string)
  : list string :=
  [ baseURL ++ "/lens/profile?walletAddress=" ++ walletAddress;
    baseURL ++ "/lens/following?walletAddress=" ++ walletAddress
      ++ "&contractAddress=" ++ contractAddress
      ++ "&inputData=" ++ inputData
      ++ "&chainId=" ++ chainId;
    baseURL ++ "/gpt/completion?contractAddress=" ++ contractAddress
      ++ "&inputData=" ++ inputData
      ++ "&chainId=" ++ chainId ].

(** The four lookups of the module, for given arguments. *)
Definition all_lookups (host : Host)
  (walletAddress contractAddress inputData chainId : string) : list (Eff JsVal) :=
  [ getLensProfile host walletAddress;
    getLensFollowing host walletAddress;
    getLensApprovedAddressList host walletAddress contractAddress inputData chainId;
    getGptCompletion host contractAddress inputData chainId ].

End SnapParts.

(* ===================================================================== *)
(** ** More observations of a trace *)
(* ===================================================================== *)

Module Observe.
Import Js.

(** The requests of a run to the explorer. *)
Fixpoint explorer_requests (t : list Event) : list string :=
  match t with
  | [] => []
  | EvAxiosGet url :: rest => url :: explorer_requests rest
  | _ :: rest => explorer_requests rest
  end.

(** The queries of a run to the profile service. *)
Fixpoint profile_queries (t : list Event) : list JsVal :=
  match t with
  | [] => []
  | EvApolloQuery variables :: rest => variables :: profile_queries rest
  | _ :: rest => profile_queries rest
  end.

(** The lines a run wrote with [console.log]. *)
Fixpoint logged (t : list Event) : list (list JsVal) :=
  match t with
  | [] => []
  | EvConsoleLog args :: rest => args :: logged rest
  | _ :: rest => logged rest
  end.

(** No event of the run is one that [excluded] accepts. *)
Definition never {A} (excluded : Event -> bool) (m : Eff A) : Prop :=
  Forall (fun ev => excluded ev = false) (trace m).

(** [null] or [undefined] *)
Definition nullish (v : JsVal) : Prop := v = JNull \/ v = JUndefined.

Definition is_console (ev : Event) : bool :=
  match ev with
  | EvConsoleLog _ | EvConsoleError _ => true
  | _ => false
  end.

Definition is_response (ev : Event) : bool :=
  match ev with
  | EvRespond _ _ => true
  | _ => false
  end.

Definition is_console_error (ev : Event) : bool :=
  match ev with
  | EvConsoleError _ => true
  | _ => false
  end.

Definition is_explorer_request (ev : Event) : bool :=
  match ev with
  | EvAxiosGet _ => true
  | _ => false
  end.

Definition is_completion_request (ev : Event) : bool :=
  match ev with
  | EvAxiosPost _ _ => true
  | _ => false
  end.

End Observe.

(* ===================================================================== *)
(** ** The completion endpoint: parts of its functions *)
(* ===================================================================== *)

Module CompletionParts.
Import Js Completion.
Local Open Scope string_scope.

(** The [case] labels of [getContractDetailsApiEndpoint]. *)
Definition supported_chains : list Z := [1; 5; 137; 59140; 80001]%Z.

Definition supported (chainId : number) : bool :=
  existsb (case_is chainId) supported_chains.

(** [apiUri] of [getGptCompletion] *)
Definition completion_uri (rt : Runtime) : string :=
  ToString rt (process_env rt "GPT_API_ENDPOINT") ++ "/v1/chat/completions".

(** [data] of [getGptCompletion], for the prompt [content] *)
Definition completion_body (content : string) : JsVal :=
  JObj [("model", JStr "gpt-3.5-turbo");
        ("messages", JArr [JObj [("role", JStr "user");
                                 ("content", JStr content)]])].

(** The third argument of [axios.post] in [getGptCompletion] *)
Definition completion_config (rt : Runtime) : JsVal :=
  JObj [("headers",
         JObj [("Content-Type", JStr "application/json");
               ("Authorization",
                JStr ("Bearer " ++ ToString rt (process_env rt "GPT_API_KEY")))])].

(** [response.data.choices[0].message.content] *)
Definition first_message_content (body : JsVal) : Res JsVal :=
  match get_prop body "choices" with
  | Throw e => Throw e
  | Ok choices =>
      match get_first choices with
      | Throw e => Throw e
      | Ok choice =>
          match get_prop choice "message" with
          | Throw e => Throw e
          | Ok message => get_prop message "content"
          end
      end
  end.

(** The details for call data that no fragment matches. *)
Definition no_details : FunctionDetails :=
  {| functionName := ""; functionArgs := []; functionAbi := JObj [] |}.

End CompletionParts.

(* ===================================================================== *)
(** ** Sample platforms *)
(* ===================================================================== *)

(** Concrete runtimes, requests and hosts on which the functions above
    are run. *)
Module Samples.
Import Js.
Local Open Scope string_scope.

Definition hex_value (c : ascii) : option N :=
  let n := N_of_ascii c in
  if ((48 <=? n) && (n <=? 57))%N then Some (n - 48)%N
  else if ((97 <=? n) && (n <=? 102))%N then Some (n - 87)%N
  else if ((65 <=? n) && (n <=? 70))%N then Some (n - 55)%N
  else None.

Fixpoint bytes_of_hex (s : string) : option (list byte) :=
  match s with
  | EmptyString => Some []
  | String hi (String lo rest) =>
      match hex_value hi, hex_value lo, bytes_of_hex rest with
      | Some h, Some l, Some bs =>
          match Byte.of_N (h * 16 + l) with
          | Some b => Some (b :: bs)
          | None => None
          end
      | _, _, _ => None
      end
  | String _ EmptyString => None
  end.

(** [getBytes] on a string: an even number of hex digits after [0x]. *)
Definition sample_getBytes (v : JsVal) : Res (list byte) :=
  match v with
  | JStr (String "0" (String "x" digits)) =>
      match bytes_of_hex digits with
      | Some bs => Ok bs
      | None => Throw (TypeError "invalid BytesLike value")
      end
  | _ => Throw (TypeError "invalid BytesLike value")
  end.

Definition sample_ToString (v : JsVal) : string :=
  match v with
  | JStr s => s
  | JUndefined => "undefined"
  | JNull => "null"
  | JBool true => "true"
  | JBool false => "false"
  | JNum (Int 0) => "0"
  | JNum (Int (Zpos p)) => nat_to_string (Pos.to_nat p)
  | JNum (Int (Zneg p)) => "-" ++ nat_to_string (Pos.to_nat p)
  | JNum _ => "NaN"
  | JArr _ => ""
  | JObj _ => "[object Object]"
  end.

Definition sample_ToNumber (v : JsVal) : number :=
  match v with
  | JNum n => n
  | JStr "1" => Int 1
  | JStr "5" => Int 5
  | JStr "137" => Int 137
  | _ => NaN
  end.

(** An ERC-20 with two functions. *)
Definition token_abi_text : string :=
  "[{'type':'function','name':'transfer','inputs':[{'type':'address'},{'type':'uint256'}]},{'type':'function','name':'approve','inputs':[{'type':'address'},{'type':'uint256'}]}]".

Definition abi_item (name : string) : JsVal :=
  JObj [("type", JStr "function"); ("name", JStr name);
        ("inputs", JArr [JObj [("type", JStr "address")];
                         JObj [("type", JStr "uint256")]])].

Definition token_abi_items : JsVal :=
  JArr [abi_item "transfer"; abi_item "approve"].

Definition token_fragments : list Completion.FunctionFragment :=
  [ {| Completion.name := "transfer";
       Completion.inputs := [ {| Completion.ptype := "address" |};
                              {| Completion.ptype := "uint256" |} ];
       Completion.selector := "0xa9059cbb" |};
    {| Completion.name := "approve";
       Completion.inputs := [ {| Completion.ptype := "address" |};
                              {| Completion.ptype := "uint256" |} ];
       Completion.selector := "0x095ea7b3" |} ].

Definition token_source : string :=
  "contract Token { function transfer(address to, uint256 value) public returns (bool) { return true; } function approve(address spender, uint256 value) public returns (bool) { return true; } }".

Definition explorer_answer : Completion.AxiosResponse :=
  {| Completion.status := 200;
     Completion.data :=
       JObj [("status", JStr "1");
             ("result", JArr [JObj [("SourceCode", JStr token_source);
                                    ("ABI", JStr token_abi_text);
                                    ("ContractName", JStr "Token")]])] |}.

(** What the explorer answers for an address without published source. *)
Definition explorer_unverified : Completion.AxiosResponse :=
  {| Completion.status := 200;
     Completion.data :=
       JObj [("status", JStr "1");
             ("result", JArr [JObj [("SourceCode", JStr "");
                                    ("ABI", JStr "Contract source code not verified");
                                    ("ContractName", JStr "")]])] |}.

Definition completion_answer : Completion.AxiosResponse :=
  {| Completion.status := 200;
     Completion.data :=
       JObj [("choices",
              JArr [JObj [("message",
                           JObj [("role", JStr "assistant");
                                 ("content", JStr "It transfers tokens.")])]])] |}.

Definition completion_unavailable : Completion.AxiosResponse :=
  {| Completion.status := 204; Completion.data := JStr "" |}.

(** A runtime: the explorer and the completion service answer as given;
    each ABI word is 32 bytes. *)
Definition runtime (explorer completion : Res Completion.AxiosResponse)
  : Completion.Runtime :=
  {| Completion.process_env := fun name =>
       if String.eqb name "GPT_API_ENDPOINT" then JStr "https://api.openai.com"
       else JStr "secret";
     Completion.axios_get := fun _ => explorer;
     Completion.axios_post := fun _ _ _ => completion;
     Completion.ToNumber := sample_ToNumber;
     Completion.ToString := sample_ToString;
     Completion.JSON_parse := fun v =>
       if strict_eq_str v token_abi_text then Ok token_abi_items
       else Throw (SyntaxError "Unexpected token");
     Completion.JSON_stringify := fun _ => "{}";
     Completion.Interface_functions := fun v =>
       if strict_eq_str v token_abi_text then Ok token_fragments
       else Throw (SyntaxError "Unexpected token");
     Completion.getBytes := sample_getBytes;
     Completion.coder_decode := fun ty data =>
       if (length data <? 32)%nat then Throw (Error "data out-of-bounds")
       else Ok (JStr (Completion.hexlify (firstn 32 data)), skipn 32 data);
     Completion.RegExp_test := fun _ _ =>
       Throw (SyntaxError "Invalid regular expression") |}.

Definition plain_runtime : Completion.Runtime :=
  runtime (Ok explorer_answer) (Ok completion_answer).

Definition transfer_call : JsVal :=
  JStr "0xa9059cbb000000000000000000000000d19b53464bbd3289823b278efb0461a9032710040000000000000000000000000000000000000000000000000000000000000064".

Definition transfer_bytes : list byte :=
  Eval vm_compute in
    match sample_getBytes transfer_call with Ok bs => bs | Throw _ => [] end.

Definition transfer_fragment : Completion.FunctionFragment :=
  {| Completion.name := "transfer";
     Completion.inputs := [ {| Completion.ptype := "address" |};
                            {| Completion.ptype := "uint256" |} ];
     Completion.selector := "0xa9059cbb" |}.

Definition transfer_args : list JsVal :=
  [ JStr "0x000000000000000000000000d19b53464bbd3289823b278efb0461a903271004";
    JStr "0x0000000000000000000000000000000000000000000000000000000000000064" ].

Definition unknown_call : JsVal := JStr "0x12345678".

(** One line of a contract: the body of [pay] calls [transfer]. *)
Definition pay_source : string :=
  "function pay() { transfer(x); if (ok) { done(); } }".

(** Two overloaded declarations of [transfer]. *)
Definition overloads_source : string :=
  "function transfer(address to) { } function transfer(address to, uint256 value) { }".

Definition request_on (chain : string) (call : JsVal) : Completion.Query :=
  {| Completion.contractAddress := JStr "0xABC";
     Completion.inputData := call;
     Completion.chainId := JStr chain |}.


(* --------------------------------------------------------------------- *)
(** *** The profile service and the wallet *)
(* --------------------------------------------------------------------- *)

Definition profile_service (answer : Res JsVal) : LensProfile.Runtime :=
  {| LensProfile.apollo_query := fun _ => answer |}.

Definition profile_found : JsVal :=
  JObj [("data", JObj [("defaultProfile", JObj [("handle", JStr "alice.lens")])])].

Definition profile_absent : JsVal :=
  JObj [("data", JObj [("defaultProfile", JNull)])].

Definition profile_request (address : string) : LensProfile.Request :=
  {| LensProfile.method := "GET"; LensProfile.walletAddress := JStr address |}.

Definition json_response (body : JsVal) : Snap.FetchResponse :=
  {| Snap.ok := true; Snap.status := 200; Snap.json := Ok body |}.

Definition server_error : Snap.FetchResponse :=
  {| Snap.ok := false; Snap.status := 500; Snap.json := Ok JNull |}.

(** A request for the completion endpoint, as opposed to the two Lens
    endpoints. *)
Definition for_completion (url : string) : bool :=
  is_substring "/gpt/completion" url.

(** A wallet: the global object has the given [worldId] property, if
    any; the Lens endpoints answer, and the completion endpoint answers
    as given. *)
Definition wallet (worldId : option JsVal) (state : JsVal)
  (completion : Res Snap.FetchResponse) : Snap.Host :=
  {| Snap.global := fun identifier =>
       if String.eqb identifier "worldId" then worldId else None;
     Snap.stored_state := state;
     Snap.fetch := fun url =>
       if for_completion url then completion
       else Ok (json_response (JObj [("data", JObj [("handle", JStr "yusaka.test")])]));
     Snap.settles_at := fun i => i |}.

Definition verified_state : JsVal := JObj [("worldId", JStr "0x2a")].

Definition pending : Snap.Transaction :=
  {| Snap.from := Some "0xd19B53464bBD3289823b278efb0461a903271004";
     Snap.to := Some "0xABC";
     Snap.data := Some "0xa9059cbb" |}.

End Samples.

(* ===================================================================== *)
(** ** Facts about strings *)
(* ===================================================================== *)

Module StringFacts.
Import Js.
Local Open Scope string_scope.

Lemma append_nil_r (s : string) : s ++ "" = s.
Proof. induction s as [|c s IH]; simpl; [reflexivity | now rewrite IH]. Qed.

Lemma append_assoc (a b c : string) : (a ++ b) ++ c = a ++ (b ++ c).
Proof. induction a as [|x a IH]; simpl; [reflexivity | now rewrite IH]. Qed.

Lemma length_append (a b : string) :
  String.length (a ++ b) = String.length a + String.length b.
Proof. induction a as [|x a IH]; simpl; [reflexivity | now rewrite IH]. Qed.

Lemma prefix_drop (t s : string) :
  prefix t s = true -> s = t ++ drop (String.length t) s.
Proof.
  revert s; induction t as [|a t IH]; intros s H; simpl.
  - reflexivity.
  - destruct s as [|c s]; simpl in H; [discriminate|].
    destruct (Ascii.ascii_dec a c) as [->|]; [|discriminate].
    simpl. f_equal. now apply IH.
Qed.

Lemma prefix_append (t u : string) : prefix t (t ++ u) = true.
Proof.
  induction t as [|a t IH]; simpl.
  - now destruct u.
  - destruct (Ascii.ascii_dec a a); [assumption | congruence].
Qed.

Lemma prefix_length (t s : string) :
  prefix t s = true -> String.length t <= String.length s.
Proof.
  intros H. rewrite (prefix_drop _ _ H) at 1. rewrite length_append. lia.
Qed.

Lemma prefix_iff (t s : string) :
  prefix t s = true <-> exists rest, s = t ++ rest.
Proof.
  split.
  - intros H. exists (drop (String.length t) s). now apply prefix_drop.
  - intros [rest ->]. apply prefix_append.
Qed.

Lemma drop_append (t s : string) : drop (String.length t) (t ++ s) = s.
Proof. induction t as [|c t IH]; [reflexivity | exact IH]. Qed.

Lemma substring_of_cons (t : string) (c : ascii) (s : string) :
  substring_of t (String c s) -> prefix t (String c s) = true \/ substring_of t s.
Proof.
  intros (pre & post & H). destruct pre as [|c' pre].
  - left. apply prefix_iff. now exists post.
  - right. injection H as _ ->. now exists pre, post.
Qed.

Lemma substring_of_refl (s : string) : substring_of s s.
Proof. exists "", "". simpl. now rewrite append_nil_r. Qed.

Lemma substring_of_empty (s : string) : substring_of "" s.
Proof. exists "", s. reflexivity. Qed.

Lemma substring_of_app_l (t a b : string) :
  substring_of t a -> substring_of t (a ++ b).
Proof.
  intros (pre & post & ->). exists pre, (post ++ b).
  now rewrite !append_assoc.
Qed.

Lemma substring_of_app_r (t a b : string) :
  substring_of t b -> substring_of t (a ++ b).
Proof.
  intros (pre & post & ->). exists (a ++ pre), post.
  now rewrite !append_assoc.
Qed.

(** [is_substring] decides [substring_of]. *)
Lemma is_substring_iff (t s : string) :
  is_substring t s = true <-> substring_of t s.
Proof.
  split.
  - induction s as [|c s IH]; cbn [is_substring]; intros H.
    + rewrite orb_false_r in H. apply prefix_drop in H.
      exists "", (drop (String.length t) ""). exact H.
    + apply orb_true_iff in H as [H|H].
      * apply prefix_drop in H. exists "", (drop (String.length t) (String c s)).
        exact H.
      * destruct (IH H) as (pre & post & ->).
        exists (String c pre), post. reflexivity.
  - intros (pre & post & ->). induction pre as [|c pre IH].
    + pose proof (prefix_append t post) as H. cbn [append].
      destruct (t ++ post); cbn [is_substring]; rewrite H; reflexivity.
    + cbn [append is_substring]. rewrite IH. apply orb_true_r.
Qed.

Lemma subsequence_empty (s : string) : subsequence "" s.
Proof. induction s; constructor; assumption. Qed.

Lemma subsequence_refl (s : string) : subsequence s s.
Proof. induction s; constructor; assumption. Qed.

Lemma subsequence_app (a b c d : string) :
  subsequence a b -> subsequence c d -> subsequence (a ++ c) (b ++ d).
Proof.
  intros Hab Hcd. induction Hab; simpl.
  - assumption.
  - now constructor.
  - now constructor.
Qed.

Lemma subsequence_length (t s : string) :
  subsequence t s -> String.length t <= String.length s.
Proof. induction 1; simpl; lia. Qed.

Lemma concat_all_app (l1 l2 : list string) :
  concat_all (l1 ++ l2)%list = concat_all l1 ++ concat_all l2.
Proof.
  induction l1 as [|x l1 IH]; simpl; [reflexivity|].
  now rewrite IH, append_assoc.
Qed.

(* --------------------------------------------------------------------- *)
(** *** [split] and [join] *)
(* --------------------------------------------------------------------- *)

Lemma split_from_nonempty (sep : string) (s : string) :
  forall skip cur, split_from sep skip cur s <> [].
Proof.
  induction s as [|c s IH]; intros skip cur; cbn [split_from].
  - discriminate.
  - destruct skip; [|apply IH].
    destruct (prefix sep (String c s)); [discriminate | apply IH].
Qed.

Lemma join_cons (sep x : string) (l : list string) :
  l <> [] -> join sep (x :: l) = x ++ sep ++ join sep l.
Proof. destruct l; [congruence | reflexivity]. Qed.

Lemma join_split_from (sep : string) :
  sep <> "" ->
  forall s skip cur,
    skip <= String.length s ->
    join sep (split_from sep skip cur s) = cur ++ drop skip s.
Proof.
  intros Hsep s; induction s as [|c s IH]; intros skip cur Hskip; cbn [split_from].
  - destruct skip; simpl; now rewrite append_nil_r.
  - destruct skip as [|k].
    + destruct (prefix sep (String c s)) eqn:Hp.
      * rewrite join_cons by apply split_from_nonempty.
        destruct sep as [|a sep']; [congruence|].
        simpl in Hp. destruct (Ascii.ascii_dec a c) as [->|]; [|discriminate].
        simpl String.length. replace (S (String.length sep') - 1) with (String.length sep') by lia.
        rewrite IH by now apply prefix_length.
        simpl. now rewrite <- (prefix_drop _ _ Hp).
      * rewrite IH by lia. simpl. now rewrite append_assoc.
    + simpl in Hskip. rewrite IH by lia. reflexivity.
Qed.

(** Joining the pieces with the separator gives the text back. *)
Lemma join_split (s sep : string) :
  sep <> "" -> join sep (split s sep) = s.
Proof.
  intros Hsep. unfold split. destruct sep as [|a sep']; [congruence|].
  rewrite join_split_from; [reflexivity | discriminate | lia].
Qed.

Lemma In_substring_join (sep x : string) (l : list string) :
  In x l -> substring_of x (join sep l).
Proof.
  induction l as [|y l IH]; [contradiction|].
  intros [->|Hin].
  - destruct l as [|z l]; [apply substring_of_refl|].
    rewrite join_cons by discriminate.
    apply substring_of_app_l, substring_of_refl.
  - destruct l as [|z l]; [contradiction|].
    rewrite join_cons by discriminate.
    apply substring_of_app_r, substring_of_app_r, IH, Hin.
Qed.

Lemma concat_all_filter_cons (keep : string -> bool) (x : string) (l : list string) :
  concat_all (filter keep (x :: l))
  = (if keep x then x else "") ++ concat_all (filter keep l).
Proof. cbn [filter]. destruct (keep x); reflexivity. Qed.

Lemma filter_subsequence_join (sep : string) (keep : string -> bool) (l : list string) :
  subsequence (concat_all (filter keep l)) (join sep l).
Proof.
  induction l as [|x l IH]; [constructor|].
  assert (Hx : subsequence (if keep x then x else "") x)
    by (destruct (keep x); [apply subsequence_refl | apply subsequence_empty]).
  destruct l as [|y l].
  - rewrite concat_all_filter_cons. cbn [filter concat_all fold_right join].
    rewrite append_nil_r. exact Hx.
  - rewrite join_cons by discriminate.
    rewrite concat_all_filter_cons.
    apply subsequence_app; [exact Hx|].
    change (concat_all (filter keep (y :: l)))
      with ("" ++ concat_all (filter keep (y :: l))).
    apply subsequence_app; [apply subsequence_empty | exact IH].
Qed.

(** Every piece is a block of the text. *)
Lemma split_substring (s sep x : string) :
  sep <> "" -> In x (split s sep) -> substring_of x s.
Proof.
  intros Hsep Hin. rewrite <- (join_split s sep Hsep) at 1.
  now apply In_substring_join.
Qed.

End StringFacts.

(* ===================================================================== *)
(** ** Facts about computations *)
(* ===================================================================== *)

Module EffFacts.
Import Js.
Local Open Scope eff_scope.

Lemma bind_ret {A B} (a : A) (k : A -> Eff B) : bind (ret a) k = k a.
Proof. unfold bind, ret. destruct (k a); reflexivity. Qed.

Lemma bind_lift_ok {A B} (a : A) (k : A -> Eff B) : bind (lift (Ok a)) k = k a.
Proof. unfold bind, lift. destruct (k a); reflexivity. Qed.

Lemma bind_lift_throw {A B} (e : Exn) (k : A -> Eff B) :
  bind (lift (Throw e)) k = ([], Throw e).
Proof. reflexivity. Qed.

Lemma bind_throw {A B} (e : Exn) (k : A -> Eff B) :
  bind (throw e) k = ([], Throw e).
Proof. reflexivity. Qed.

Lemma bind_emit {B} (ev : Event) (k : unit -> Eff B) :
  bind (emit ev) k = (ev :: trace (k tt), outcome (k tt)).
Proof. unfold bind, emit. destruct (k tt); reflexivity. Qed.

Lemma outcome_bind_ok {A B} (m : Eff A) (k : A -> Eff B) (a : A) :
  outcome m = Ok a -> outcome (bind m k) = outcome (k a).
Proof.
  destruct m as [t r]; simpl; intros ->. unfold bind.
  destruct (k a); reflexivity.
Qed.

Lemma trace_bind_ok {A B} (m : Eff A) (k : A -> Eff B) (a : A) :
  outcome m = Ok a -> trace (bind m k) = (trace m ++ trace (k a))%list.
Proof.
  destruct m as [t r]; simpl; intros ->. unfold bind.
  destruct (k a); reflexivity.
Qed.

Lemma outcome_bind_throw {A B} (m : Eff A) (k : A -> Eff B) (e : Exn) :
  outcome m = Throw e -> outcome (bind m k) = Throw e.
Proof. destruct m as [t r]; simpl; intros ->. reflexivity. Qed.

Lemma trace_bind_throw {A B} (m : Eff A) (k : A -> Eff B) (e : Exn) :
  outcome m = Throw e -> trace (bind m k) = trace m.
Proof. destruct m as [t r]; simpl; intros ->. reflexivity. Qed.

(** What came before stays in the trace. *)
Lemma trace_bind_incl {A B} (m : Eff A) (k : A -> Eff B) (ev : Event) :
  In ev (trace m) -> In ev (trace (bind m k)).
Proof.
  destruct m as [t [a|e]]; simpl; intros H; unfold bind.
  - destruct (k a). simpl. apply in_or_app. now left.
  - exact H.
Qed.

Lemma bind_lift_ok_ret {A B} (a : A) (k : A -> Eff B) :
  bind (([], Ok a) : Eff A) k = k a.
Proof. exact (bind_ret a k). Qed.

Lemma eta {A} (m : Eff A) : m = (trace m, outcome m).
Proof. now destruct m. Qed.

(** Case analysis on the steps of a computation that can throw and on
    its branches. *)
Ltac case_steps :=
  repeat match goal with
         | |- context [bind (lift ?r) _] =>
             destruct r; [rewrite bind_lift_ok | rewrite bind_lift_throw]
         | |- context [if ?b then _ else _] => destruct b
         end.

End EffFacts.

(* ===================================================================== *)
(** ** The completion endpoint: properties *)
(* ===================================================================== *)

Module CompletionFacts.
Import Js Completion EffFacts StringFacts.
Local Open Scope string_scope.
Local Open Scope eff_scope.

Lemma logged_errors_app (t1 t2 : list Event) :
  logged_errors (t1 ++ t2)%list = (logged_errors t1 ++ logged_errors t2)%list.
Proof.
  induction t1 as [|ev t1 IH]; [reflexivity|].
  destruct ev; simpl; rewrite IH; reflexivity.
Qed.

Lemma completion_requests_app (t1 t2 : list Event) :
  completion_requests (t1 ++ t2)%list
  = (completion_requests t1 ++ completion_requests t2)%list.
Proof.
  induction t1 as [|ev t1 IH]; [reflexivity|].
  destruct ev; simpl; rewrite IH; reflexivity.
Qed.

Lemma responses_app (t1 t2 : list Event) :
  responses (t1 ++ t2)%list = (responses t1 ++ responses t2)%list.
Proof.
  induction t1 as [|ev t1 IH]; [reflexivity|].
  destruct ev; simpl; rewrite IH; reflexivity.
Qed.

(* --------------------------------------------------------------------- *)
(** *** Resolving the function call *)
(* --------------------------------------------------------------------- *)

Lemma no_selector_match_spec fragments key :
  no_selector_match fragments key = true <->
  (forall f, In f fragments -> selector f <> key).
Proof.
  unfold no_selector_match. rewrite forallb_forall. split; intros H f Hin.
  - specialize (H f Hin). apply negb_true_iff, String.eqb_neq in H. congruence.
  - apply negb_true_iff, String.eqb_neq. intros E. apply (H f Hin). now symmetry.
Qed.

Lemma getFunction_none fragments key :
  no_selector_match fragments key = true -> getFunction fragments key = None.
Proof.
  unfold no_selector_match, getFunction.
  induction fragments as [|f fs IH]; simpl; [reflexivity|].
  intros H. apply andb_true_iff in H as [Hf Hfs].
  apply negb_true_iff in Hf. rewrite Hf. now apply IH.
Qed.

Lemma getFunction_some fragments key fragment :
  getFunction fragments key = Some fragment ->
  In fragment fragments /\ selector fragment = key.
Proof.
  unfold getFunction. intros H. apply find_some in H as [Hin Heq].
  apply String.eqb_eq in Heq. now split.
Qed.

(** The tuple decoder yields one value per coder. *)
Lemma unpack_length rt coders :
  forall data values,
    unpack rt coders data = Ok values -> length values = length coders.
Proof.
  induction coders as [|c coders IH]; intros data values; simpl.
  - intros [= <-]. reflexivity.
  - destruct (coder_decode rt c data) as [[v data']|e]; [|discriminate].
    destruct (unpack rt coders data') as [vs|e] eqn:Hrest; [|discriminate].
    intros [= <-]. simpl. f_equal. exact (IH _ _ Hrest).
Qed.

Lemma parseTransaction_no_match rt fragments inputData bytes :
  getBytes rt inputData = Ok bytes ->
  no_selector_match fragments (hexlify (firstn 4 bytes)) = true ->
  parseTransaction rt fragments inputData = Ok None.
Proof.
  intros Hbytes Hnone. unfold parseTransaction.
  rewrite Hbytes, (getFunction_none _ _ Hnone). reflexivity.
Qed.

Lemma parseTransaction_match rt fragments inputData bytes fragment args :
  getBytes rt inputData = Ok bytes ->
  getFunction fragments (hexlify (firstn 4 bytes)) = Some fragment ->
  unpack rt (inputs fragment) (skipn 4 bytes) = Ok args ->
  parseTransaction rt fragments inputData
  = Ok (Some {| td_name := name fragment; td_args := args; td_fragment := fragment |}).
Proof.
  intros Hbytes Hfind Hargs. unfold parseTransaction.
  rewrite Hbytes, Hfind, Hargs. reflexivity.
Qed.

(** C3.  For call data and an ABI in which no fragment has the selector
    of the call data (its first 4 bytes), [getContractFunctionDetails]
    returns the details with the empty function name, no arguments and
    the empty ABI object; it does not throw and has no other effect. *)
Theorem no_match_gives_empty_details rt inputData contractABI fragments bytes :
  Interface_functions rt contractABI = Ok fragments ->
  getBytes rt inputData = Ok bytes ->
  no_selector_match fragments (hexlify (firstn 4 bytes)) = true ->
  getContractFunctionDetails rt inputData contractABI
  = ([], Ok {| functionName := ""; functionArgs := []; functionAbi := JObj [] |}).
Proof.
  intros Habi Hbytes Hnone. unfold getContractFunctionDetails.
  rewrite Habi, bind_lift_ok.
  rewrite (parseTransaction_no_match _ _ _ _ Hbytes Hnone), bind_lift_ok.
  reflexivity.
Qed.

Lemma no_match_gives_empty_details_witness :
  getContractFunctionDetails Samples.plain_runtime Samples.unknown_call
    (JStr Samples.token_abi_text)
  = ([], Ok {| functionName := ""; functionArgs := []; functionAbi := JObj [] |}).
Proof.
  apply (no_match_gives_empty_details Samples.plain_runtime Samples.unknown_call
           (JStr Samples.token_abi_text) Samples.token_fragments
           [x12; x34; x56; x78]%byte); reflexivity.
Defined.

(** C8.  When a fragment has the selector of the call data and the
    decoding succeeds, [getContractFunctionDetails] returns details that
    name the fragment's function and carry as many arguments as the
    fragment declares inputs. *)
Theorem decoded_argument_count rt inputData contractABI fragments bytes fragment
    args items found :
  Interface_functions rt contractABI = Ok fragments ->
  getBytes rt inputData = Ok bytes ->
  getFunction fragments (hexlify (firstn 4 bytes)) = Some fragment ->
  unpack rt (inputs fragment) (skipn 4 bytes) = Ok args ->
  JSON_parse rt contractABI = Ok (JArr items) ->
  find_function_item (name fragment) items = Ok found ->
  exists details,
    outcome (getContractFunctionDetails rt inputData contractABI) = Ok details
    /\ functionName details = name fragment
    /\ functionArgs details = args
    /\ length (functionArgs details) = length (inputs fragment).
Proof.
  intros Habi Hbytes Hfind Hargs Hparse Hitem.
  unfold getContractFunctionDetails.
  rewrite Habi, bind_lift_ok.
  rewrite (parseTransaction_match _ _ _ _ _ _ Hbytes Hfind Hargs), bind_lift_ok.
  cbn [td_name td_args]. rewrite Hparse, bind_lift_ok, Hitem, bind_lift_ok.
  destruct (truthy found); cbn [negb].
  - rewrite bind_ret. eexists. repeat split. simpl. exact (unpack_length _ _ _ _ Hargs).
  - rewrite bind_emit. eexists. repeat split. simpl. exact (unpack_length _ _ _ _ Hargs).
Qed.

Lemma decoded_argument_count_witness :
  exists details,
    outcome (getContractFunctionDetails Samples.plain_runtime Samples.transfer_call
               (JStr Samples.token_abi_text)) = Ok details
    /\ functionName details = "transfer"
    /\ functionArgs details = Samples.transfer_args
    /\ length (functionArgs details) = 2.
Proof.
  apply (decoded_argument_count Samples.plain_runtime Samples.transfer_call
           (JStr Samples.token_abi_text) Samples.token_fragments
           Samples.transfer_bytes Samples.transfer_fragment Samples.transfer_args
           [Samples.abi_item "transfer"; Samples.abi_item "approve"]
           (Samples.abi_item "transfer")); reflexivity.
Defined.

(* --------------------------------------------------------------------- *)
(** *** The pattern of the snippet extractor *)
(* --------------------------------------------------------------------- *)

Lemma line_terminator_at_iff (s : string) :
  line_terminator_at s = true <->
  exists t, In t line_terminators /\ prefix t s = true.
Proof. unfold line_terminator_at. apply existsb_exists. Qed.

Lemma on_one_line_empty : on_one_line "".
Proof.
  intros t Hin (pre & post & H).
  destruct pre; [|discriminate].
  cbn in Hin. destruct Hin as [<-|[<-|[<-|[<-|[]]]]]; discriminate.
Qed.

(** A terminator at the start of [mid ++ "{" ++ post] starts [mid]. *)
Lemma terminator_before_brace (t mid post : string) :
  In t line_terminators ->
  prefix t (mid ++ "{" ++ post) = true -> prefix t mid = true.
Proof.
  intros Hin Hpre. apply prefix_iff in Hpre as [rest H]. apply prefix_iff.
  cbn in Hin. destruct Hin as [<-|[<-|[<-|[<-|[]]]]];
    destruct mid as [|c1 [|c2 [|c3 mid]]]; cbn in H;
    try discriminate H; injection H; intros; subst;
    eexists; reflexivity.
Qed.

Lemma brace_on_line_iff (s : string) :
  brace_on_line s = true <->
  exists mid post, s = mid ++ "{" ++ post /\ on_one_line mid.
Proof.
  split.
  - induction s as [|c s IH]; cbn [brace_on_line]; [discriminate|].
    destruct (Ascii.eqb c "{") eqn:Hc.
    + intros _. apply Ascii.eqb_eq in Hc. subst c.
      exists "", s. split; [reflexivity | apply on_one_line_empty].
    + destruct (line_terminator_at (String c s)) eqn:Hterm; [discriminate|].
      intros H. destruct (IH H) as (mid & post & -> & Hline).
      exists (String c mid), post. split; [reflexivity|].
      intros t Hin Hsub. apply substring_of_cons in Hsub as [Hpre|Hsub].
      * assert (line_terminator_at (String c (mid ++ "{" ++ post)) = true); [|congruence].
        apply line_terminator_at_iff. exists t. split; [exact Hin|].
        apply prefix_iff in Hpre as [rest Hrest]. apply prefix_iff.
        exists (rest ++ "{" ++ post).
        change (String c (mid ++ "{" ++ post)) with (String c mid ++ "{" ++ post).
        now rewrite Hrest, append_assoc.
      * exact (Hline t Hin Hsub).
  - intros (mid & post & -> & Hline). induction mid as [|c mid IH].
    + reflexivity.
    + cbn [append brace_on_line]. destruct (Ascii.eqb c "{"); [reflexivity|].
      match goal with
      | |- context [line_terminator_at ?x] =>
          destruct (line_terminator_at x) eqn:Hterm
      end.
      * exfalso. apply line_terminator_at_iff in Hterm as (t & Hin & Hpre).
        apply (Hline t Hin).
        apply (terminator_before_brace t (String c mid) post Hin) in Hpre.
        apply prefix_iff in Hpre as [rest ->]. exists "", rest. reflexivity.
      * apply IH. intros t Hin Hsub. apply (Hline t Hin).
        destruct Hsub as (pre & post' & ->). now exists (String c pre), post'.
Qed.

Lemma name_then_brace_unfold (w item : string) :
  name_then_brace w item
  = (prefix w item && brace_on_line (drop (String.length w) item))
    || match item with
       | EmptyString => false
       | String _ item' => name_then_brace w item'
       end.
Proof. destruct item; reflexivity. Qed.

Lemma name_then_brace_iff (w item : string) :
  name_then_brace w item = true <-> name_before_brace w item.
Proof.
  unfold name_before_brace. split.
  - induction item as [|c item IH]; cbn [name_then_brace]; intros H;
      apply orb_true_iff in H as [H|H]; try discriminate.
    + apply andb_true_iff in H as [Hpre Hbrace].
      apply brace_on_line_iff in Hbrace as (mid & post & Hrest & Hline).
      exists "", mid, post. split; [|exact Hline].
      rewrite (prefix_drop _ _ Hpre) at 1. cbn [append]. now rewrite Hrest.
    + apply andb_true_iff in H as [Hpre Hbrace].
      apply brace_on_line_iff in Hbrace as (mid & post & Hrest & Hline).
      exists "", mid, post. split; [|exact Hline].
      rewrite (prefix_drop _ _ Hpre) at 1. cbn [append]. now rewrite Hrest.
    + destruct (IH H) as (pre & mid & post & -> & Hline).
      exists (String c pre), mid, post. split; [reflexivity | exact Hline].
  - intros (pre & mid & post & -> & Hline). induction pre as [|c pre IH].
    + change ("" ++ w ++ mid ++ "{" ++ post) with (w ++ mid ++ "{" ++ post).
      assert (Hhere : prefix w (w ++ mid ++ "{" ++ post)
                      && brace_on_line (drop (String.length w) (w ++ mid ++ "{" ++ post))
                      = true).
      { rewrite prefix_append, drop_append. apply brace_on_line_iff.
        now exists mid, post. }
      now rewrite name_then_brace_unfold, Hhere.
    + change (String c pre ++ w ++ mid ++ "{" ++ post)
        with (String c (pre ++ w ++ mid ++ "{" ++ post)).
      rewrite name_then_brace_unfold, IH. apply orb_true_r.
Qed.

(* --------------------------------------------------------------------- *)
(** *** Extracting the source snippet *)
(* --------------------------------------------------------------------- *)

Lemma forEach_ok rt functionName items :
  forall collected snippet,
    forEach rt functionName items collected = Ok snippet ->
    snippet = collected ++ concat_all (filter (keeps rt functionName) items).
Proof.
  induction items as [|item items IH]; intros collected snippet; cbn [forEach].
  - intros [= <-]. simpl. now rewrite append_nil_r.
  - unfold collect_matching. rewrite concat_all_filter_cons. unfold keeps at 1.
    destruct (pattern_test rt functionName item) as [[|]|e]; [| |discriminate];
      intros H; apply IH in H; rewrite H.
    + now rewrite append_assoc.
    + reflexivity.
Qed.

Lemma pattern_test_word rt functionName item :
  word_chars functionName = true ->
  pattern_test rt functionName item = Ok (name_then_brace functionName item).
Proof. unfold pattern_test. now intros ->. Qed.

Lemma keeps_word rt functionName :
  word_chars functionName = true ->
  forall item, keeps rt functionName item = name_then_brace functionName item.
Proof.
  intros Hw item. unfold keeps. rewrite (pattern_test_word _ _ _ Hw).
  now destruct (name_then_brace functionName item).
Qed.

(** For a name of word characters the loop runs to its end. *)
Lemma forEach_word rt functionName items :
  word_chars functionName = true ->
  forall collected,
    forEach rt functionName items collected
    = Ok (collected ++ concat_all (filter (name_then_brace functionName) items)).
Proof.
  intros Hw. induction items as [|item items IH]; intros collected; cbn [forEach].
  - simpl. now rewrite append_nil_r.
  - unfold collect_matching. rewrite (pattern_test_word _ _ _ Hw).
    rewrite concat_all_filter_cons.
    destruct (name_then_brace functionName item); rewrite IH.
    + now rewrite append_assoc.
    + reflexivity.
Qed.

Lemma outcome_getFunctionSourceCode rt contractCode functionName :
  outcome (getFunctionSourceCode rt contractCode functionName)
  = forEach rt functionName (split contractCode "function") "".
Proof.
  unfold getFunctionSourceCode.
  destruct (forEach rt functionName (split contractCode "function") "") as [snippet|e].
  - rewrite bind_lift_ok. destruct (String.eqb snippet "").
    + rewrite bind_emit. reflexivity.
    + rewrite bind_ret. reflexivity.
  - reflexivity.
Qed.

(** C4, as the code has it.  For a function name of word characters,
    [getFunctionSourceCode] splits the contract code on the keyword
    [function], keeps exactly the segments in which the name occurs,
    anywhere, with an opening brace after it on the same line, and
    returns the kept segments concatenated in order.  When the segments
    of two overloaded declarations are both kept, both are in the
    result, the first before the second. *)
Theorem snippet_is_matching_segments rt contractCode functionName :
  word_chars functionName = true ->
  let segments := split contractCode "function" in
  let kept := filter (name_then_brace functionName) segments in
  outcome (getFunctionSourceCode rt contractCode functionName) = Ok (concat_all kept)
  /\ (forall segment,
        In segment kept <->
        In segment segments /\ name_before_brace functionName segment)
  /\ forall before first between second after,
      segments = (before ++ first :: between ++ second :: after)%list ->
      name_before_brace functionName first ->
      name_before_brace functionName second ->
      outcome (getFunctionSourceCode rt contractCode functionName)
      = Ok (taken functionName before ++ first
            ++ taken functionName between ++ second
            ++ taken functionName after).
Proof.
  intros Hw segments kept.
  assert (Hout : outcome (getFunctionSourceCode rt contractCode functionName)
                 = Ok (concat_all kept))
    by (rewrite outcome_getFunctionSourceCode, forEach_word by exact Hw; reflexivity).
  split; [exact Hout|]. split.
  - intros segment. unfold kept. rewrite filter_In, name_then_brace_iff. reflexivity.
  - intros before first between second after Hsplit Hfirst Hsecond.
    apply name_then_brace_iff in Hfirst, Hsecond.
    rewrite Hout. unfold kept. rewrite Hsplit. f_equal. unfold taken.
    rewrite filter_app, concat_all_app, concat_all_filter_cons, Hfirst.
    rewrite filter_app, concat_all_app, concat_all_filter_cons, Hsecond.
    reflexivity.
Qed.

Lemma snippet_is_matching_segments_witness :
  outcome (getFunctionSourceCode Samples.plain_runtime Samples.overloads_source "transfer")
  = Ok " transfer(address to) { }  transfer(address to, uint256 value) { }".
Proof.
  destruct (snippet_is_matching_segments Samples.plain_runtime
              Samples.overloads_source "transfer") as (_ & _ & Hboth); [reflexivity|].
  apply (Hboth [""] " transfer(address to) { } " []
               " transfer(address to, uint256 value) { }" []);
    [reflexivity | apply name_then_brace_iff; reflexivity
                 | apply name_then_brace_iff; reflexivity].
Defined.

(** C4, as the specification words it, fails: in a one-line contract
    whose function [pay] calls [transfer], the code returns the segment
    of [pay] for the name [transfer], though that segment does not start
    with the name. *)
Lemma snippet_not_anchored_at_start :
  outcome (getFunctionSourceCode Samples.plain_runtime Samples.pay_source "transfer")
  = Ok " pay() { transfer(x); if (ok) { done(); } }"
  /\ extractSourceSnippet_spec Samples.pay_source "transfer" = ""
  /\ outcome (getFunctionSourceCode Samples.plain_runtime Samples.pay_source "transfer")
     <> Ok (extractSourceSnippet_spec Samples.pay_source "transfer").
Proof. repeat split. vm_compute. discriminate. Qed.

(** The brace has to be on the line of the name: a declaration that
    opens its block on the next line is not found. *)
Example brace_on_next_line :
  outcome (getFunctionSourceCode Samples.plain_runtime
             ("function transfer(address to)" ++ String (ascii_of_nat 10) "{ }")
             "transfer")
  = Ok "".
Proof. reflexivity. Qed.

(** C5, as the code has it.  What [getFunctionSourceCode] returns is the
    concatenation, in order, of the kept segments; each of them is a
    block of the contract code, and the whole is the contract code with
    characters deleted.  It is a block of the contract code when at most
    one segment is kept, and the empty string when none is. *)
Theorem snippet_is_subsequence rt contractCode functionName snippet :
  outcome (getFunctionSourceCode rt contractCode functionName) = Ok snippet ->
  let segments := filter (keeps rt functionName) (split contractCode "function") in
  snippet = concat_all segments
  /\ Forall (fun segment => substring_of segment contractCode) segments
  /\ subsequence snippet contractCode
  /\ (length segments <= 1 -> substring_of snippet contractCode).
Proof.
  intros Hout segments. rewrite outcome_getFunctionSourceCode in Hout.
  apply forEach_ok in Hout. cbn [append] in Hout. fold segments in Hout.
  assert (Hsep : "function" <> "") by discriminate.
  assert (Hall : Forall (fun segment => substring_of segment contractCode) segments).
  { apply Forall_forall. intros segment Hin. apply filter_In in Hin as [Hin _].
    exact (split_substring _ _ _ Hsep Hin). }
  repeat split.
  - exact Hout.
  - exact Hall.
  - rewrite Hout. unfold segments.
    rewrite <- (join_split contractCode "function" Hsep) at 2.
    apply filter_subsequence_join.
  - intros Hlen. rewrite Hout.
    destruct segments as [|segment [|]]; simpl in Hlen; [| |lia].
    + apply substring_of_empty.
    + simpl. rewrite append_nil_r. now inversion Hall.
Qed.

Lemma snippet_is_subsequence_witness :
  subsequence " transfer(address to) { }  transfer(address to, uint256 value) { }"
              Samples.overloads_source.
Proof.
  apply (snippet_is_subsequence Samples.plain_runtime Samples.overloads_source
           "transfer"). reflexivity.
Defined.

(** C5, as stated, fails: with two overloaded declarations of [transfer]
    the result is the two segments without the keyword between them,
    which is not a block of the contract code. *)
Lemma snippet_not_substring :
  exists snippet,
    outcome (getFunctionSourceCode Samples.plain_runtime Samples.overloads_source
               "transfer") = Ok snippet
    /\ ~ substring_of snippet Samples.overloads_source.
Proof.
  eexists. split; [reflexivity|].
  intros H. apply is_substring_iff in H. vm_compute in H. discriminate.
Qed.

(* --------------------------------------------------------------------- *)
(** *** The metadata lookup *)
(* --------------------------------------------------------------------- *)

Lemma getContractDetailsApiEndpoint_cases rt chainId contractAddress :
  (exists uri, getContractDetailsApiEndpoint rt chainId contractAddress = ([], Ok (Some uri)))
  \/ getContractDetailsApiEndpoint rt chainId contractAddress
     = ([EvConsoleLog [JStr "ChainId not supported."]], Ok None).
Proof.
  unfold getContractDetailsApiEndpoint.
  repeat match goal with
         | |- context [if ?b then _ else _] => destruct b; [left; eexists; reflexivity|]
         end.
  right. reflexivity.
Qed.

(** The lookup does not talk to the completion service. *)
Lemma getContractDetails_no_completion rt chainId contractAddress :
  completion_requests (trace (getContractDetails rt chainId contractAddress)) = [].
Proof.
  unfold getContractDetails.
  destruct (getContractDetailsApiEndpoint_cases rt chainId contractAddress)
    as [[uri ->] | ->].
  - rewrite bind_lift_ok_ret, bind_emit. cbn [trace fst completion_requests].
    case_steps; reflexivity.
  - reflexivity.
Qed.

(** Nor does it write an error to the console. *)
Lemma getContractDetails_no_errors rt chainId contractAddress :
  logged_errors (trace (getContractDetails rt chainId contractAddress)) = [].
Proof.
  unfold getContractDetails.
  destruct (getContractDetailsApiEndpoint_cases rt chainId contractAddress)
    as [[uri ->] | ->].
  - rewrite bind_lift_ok_ret, bind_emit. cbn [trace fst logged_errors].
    case_steps; reflexivity.
  - reflexivity.
Qed.

(** An unsupported chain is "not verified", without a request. *)
Lemma getContractDetails_unsupported_chain rt chainId contractAddress :
  case_is chainId 1 = false -> case_is chainId 5 = false ->
  case_is chainId 137 = false -> case_is chainId 59140 = false ->
  case_is chainId 80001 = false ->
  getContractDetails rt chainId contractAddress
  = ([EvConsoleLog [JStr "ChainId not supported."]], Ok None).
Proof.
  intros H1 H5 H137 H59140 H80001.
  unfold getContractDetails, getContractDetailsApiEndpoint.
  rewrite H1, H5, H137, H59140, H80001. reflexivity.
Qed.

(** An answer without a result, or whose first result lacks the
    contract's name, source or ABI, is "not verified". *)
Lemma getContractDetails_not_verified rt chainId contractAddress uri response result :
  getContractDetailsApiEndpoint rt chainId contractAddress = ([], Ok (Some uri)) ->
  axios_get rt uri = Ok response ->
  get_prop (data response) "result" = Ok result ->
  truthy result = false
  \/ (exists first,
         get_first result = Ok first
         /\ (truthy first = false
             \/ exists contractName contractCode abi,
                 get_prop first "ContractName" = Ok contractName
                 /\ get_prop first "SourceCode" = Ok contractCode
                 /\ get_prop first "ABI" = Ok abi
                 /\ truthy contractName && truthy contractCode && truthy abi = false)) ->
  getContractDetails rt chainId contractAddress = ([EvAxiosGet uri], Ok None).
Proof.
  intros Huri Hget Hresult Hcases. unfold getContractDetails.
  rewrite Huri, bind_lift_ok_ret, bind_emit, Hget, bind_lift_ok, Hresult, bind_lift_ok.
  destruct Hcases as [Hfalsy | (first & Hfirst & Hcases)].
  - rewrite Hfalsy. reflexivity.
  - destruct (truthy result); [|reflexivity]. cbn [negb].
    rewrite Hfirst, bind_lift_ok.
    destruct Hcases as [Hfalsy | (n & c & a & Hn & Hc & Ha & Hfields)].
    + rewrite Hfalsy. reflexivity.
    + destruct (truthy first); [|reflexivity]. cbn [negb].
      rewrite Hn, bind_lift_ok, Hc, bind_lift_ok, Ha, bind_lift_ok.
      rewrite <- !negb_andb, Hfields. reflexivity.
Qed.

(* --------------------------------------------------------------------- *)
(** *** The pipeline *)
(* --------------------------------------------------------------------- *)

(** C6.  When the metadata lookup answers "not verified"
    ([getContractDetails] returns [false]), [getResponseData] returns the
    warning string, and the run is the run of the lookup alone: no
    request goes to the completion service. *)
Theorem not_verified_returns_warning rt request :
  outcome (getContractDetails rt (ToNumber rt (chainId request))
                              (contractAddress request)) = Ok None ->
  outcome (getResponseData rt request) = Ok (JStr warning_not_verified)
  /\ trace (getResponseData rt request)
     = trace (getContractDetails rt (ToNumber rt (chainId request))
                                 (contractAddress request))
  /\ completion_requests (trace (getResponseData rt request)) = [].
Proof.
  intros Hlookup.
  assert (Hrun : getResponseData rt request
                 = (trace (getContractDetails rt (ToNumber rt (chainId request))
                                              (contractAddress request)),
                    Ok (JStr warning_not_verified))).
  { unfold getResponseData, getResponseData_try.
    destruct (getContractDetails rt (ToNumber rt (chainId request))
                                 (contractAddress request)) as [t r].
    simpl in Hlookup. subst r. simpl. now rewrite app_nil_r. }
  rewrite Hrun. cbn [outcome trace fst snd]. repeat split.
  apply getContractDetails_no_completion.
Qed.

Lemma not_verified_returns_warning_witness :
  outcome (getResponseData
             (Samples.runtime (Ok Samples.explorer_unverified) (Ok Samples.completion_answer))
             (Samples.request_on "1" Samples.transfer_call))
  = Ok (JStr warning_not_verified)
  /\ completion_requests
       (trace (getResponseData
                 (Samples.runtime (Ok Samples.explorer_unverified)
                                  (Ok Samples.completion_answer))
                 (Samples.request_on "1" Samples.transfer_call))) = [].
Proof.
  destruct (not_verified_returns_warning
              (Samples.runtime (Ok Samples.explorer_unverified)
                               (Ok Samples.completion_answer))
              (Samples.request_on "1" Samples.transfer_call))
    as (Hout & _ & Hnone); [reflexivity|].
  split; assumption.
Defined.

(** A malformed ABI stops the resolution of the call. *)
Lemma malformed_abi_throws rt inputData contractABI e :
  Interface_functions rt contractABI = Throw e ->
  getContractFunctionDetails rt inputData contractABI = ([], Throw e).
Proof. intros H. unfold getContractFunctionDetails. now rewrite H. Qed.

(** A failed request to the explorer stops the lookup. *)
Lemma transport_failure_throws rt chainId contractAddress uri e :
  getContractDetailsApiEndpoint rt chainId contractAddress = ([], Ok (Some uri)) ->
  axios_get rt uri = Throw e ->
  getContractDetails rt chainId contractAddress = ([EvAxiosGet uri], Throw e).
Proof.
  intros Huri Hget. unfold getContractDetails.
  now rewrite Huri, bind_lift_ok_ret, bind_emit, Hget.
Qed.

(** An answer of the completion service with a status other than 200
    raises an error. *)
Lemma completion_failure_throws rt contractAddress contractName snippet details response :
  (forall uri body config, axios_post rt uri body config = Ok response) ->
  status response <> 200 ->
  outcome (getGptCompletion rt contractAddress contractName snippet details)
  = Throw (Error "Failed to get GPT completion.").
Proof.
  intros Hpost Hstatus. unfold getGptCompletion.
  rewrite bind_emit, Hpost, bind_lift_ok. cbn [outcome snd].
  apply Nat.eqb_neq in Hstatus. now rewrite Hstatus.
Qed.

(** What the [catch] block makes of an error. *)
Lemma caught_is_generic rt request e :
  outcome (getResponseData_try rt (contractAddress request) (inputData request)
                               (ToNumber rt (chainId request))) = Throw e ->
  getResponseData rt request
  = ((trace (getResponseData_try rt (contractAddress request) (inputData request)
                                 (ToNumber rt (chainId request)))
      ++ [EvConsoleError e])%list,
     Ok generic_error).
Proof.
  intros Hthrow. unfold getResponseData.
  destruct (getResponseData_try rt (contractAddress request) (inputData request)
                                (ToNumber rt (chainId request))) as [t r].
  simpl in Hthrow. subst r. reflexivity.
Qed.

(** The three causes, from the request to the result. *)
Lemma transport_failure_is_generic rt request uri e :
  getContractDetailsApiEndpoint rt (ToNumber rt (chainId request)) (contractAddress request)
  = ([], Ok (Some uri)) ->
  axios_get rt uri = Throw e ->
  getResponseData rt request = ([EvAxiosGet uri; EvConsoleError e], Ok generic_error).
Proof.
  intros Huri Hget.
  assert (Htry : getResponseData_try rt (contractAddress request) (inputData request)
                                     (ToNumber rt (chainId request))
                 = ([EvAxiosGet uri], Throw e)).
  { unfold getResponseData_try.
    now rewrite (transport_failure_throws _ _ _ _ _ Huri Hget). }
  rewrite (caught_is_generic rt request e); rewrite Htry; reflexivity.
Qed.

Lemma malformed_abi_is_generic rt request details e :
  outcome (getContractDetails rt (ToNumber rt (chainId request))
                              (contractAddress request)) = Ok (Some details) ->
  Interface_functions rt (abi details) = Throw e ->
  outcome (getResponseData rt request) = Ok generic_error
  /\ logged_errors (trace (getResponseData rt request)) = [e]
  /\ completion_requests (trace (getResponseData rt request)) = [].
Proof.
  intros Hdetails Habi.
  assert (Hlookup := getContractDetails_no_completion rt (ToNumber rt (chainId request))
                       (contractAddress request)).
  assert (Hquiet := getContractDetails_no_errors rt (ToNumber rt (chainId request))
                       (contractAddress request)).
  assert (Htry : getResponseData_try rt (contractAddress request) (inputData request)
                                     (ToNumber rt (chainId request))
                 = (trace (getContractDetails rt (ToNumber rt (chainId request))
                                              (contractAddress request)),
                    Throw e)).
  { unfold getResponseData_try.
    destruct (getContractDetails rt (ToNumber rt (chainId request))
                                 (contractAddress request)) as [t r].
    simpl in Hdetails. subst r.
    cbn [bind]. rewrite (malformed_abi_throws _ _ _ _ Habi). cbn [bind trace fst].
    now rewrite app_nil_r. }
  rewrite (caught_is_generic rt request e); rewrite Htry; cbn [outcome trace fst snd].
  - repeat split.
    + now rewrite logged_errors_app, Hquiet.
    + now rewrite completion_requests_app, Hlookup.
  - reflexivity.
Qed.

Lemma completion_failure_is_generic rt request details resolved code snippet response :
  outcome (getContractDetails rt (ToNumber rt (chainId request))
                              (contractAddress request)) = Ok (Some details) ->
  outcome (getContractFunctionDetails rt (inputData request) (abi details)) = Ok resolved ->
  contractCode details = JStr code ->
  outcome (getFunctionSourceCode rt code (functionName resolved)) = Ok snippet ->
  (forall uri body config, axios_post rt uri body config = Ok response) ->
  status response <> 200 ->
  outcome (getResponseData rt request) = Ok generic_error.
Proof.
  intros Hdetails Hresolved Hcode Hsnippet Hpost Hstatus.
  assert (Htry : outcome (getResponseData_try rt (contractAddress request)
                            (inputData request) (ToNumber rt (chainId request)))
                 = Throw (Error "Failed to get GPT completion.")).
  { unfold getResponseData_try.
    rewrite (outcome_bind_ok _ _ _ Hdetails), (outcome_bind_ok _ _ _ Hresolved).
    rewrite Hcode, (outcome_bind_ok _ _ _ Hsnippet).
    apply outcome_bind_throw.
    exact (completion_failure_throws _ _ _ _ _ _ Hpost Hstatus). }
  now rewrite (caught_is_generic rt request _ Htry).
Qed.

(** C9.  When anything in the pipeline throws (a malformed ABI, a failed
    request, an answer of the completion service that is not a success),
    [getResponseData] writes the error to the console and returns the
    generic failure object, and the handler answers with that object
    alone: the response does not depend on the error. *)
Theorem failure_is_generic rt request e :
  outcome (getResponseData_try rt (contractAddress request) (inputData request)
                               (ToNumber rt (chainId request))) = Throw e ->
  let attempt := trace (getResponseData_try rt (contractAddress request)
                          (inputData request) (ToNumber rt (chainId request))) in
  getResponseData rt request = ((attempt ++ [EvConsoleError e])%list, Ok generic_error)
  /\ handler rt request
     = ((attempt ++ [EvConsoleError e; EvRespond 200 (JObj [("data", generic_error)])])%list,
        Ok tt)
  /\ logged_errors (trace (handler rt request)) = (logged_errors attempt ++ [e])%list
  /\ responses (trace (handler rt request))
     = (responses attempt ++ [(200, JObj [("data", JObj [("error", JStr "An Error Occurred")])])])%list.
Proof.
  intros Hthrow attempt.
  assert (Hdata : getResponseData rt request
                  = ((attempt ++ [EvConsoleError e])%list, Ok generic_error))
    by exact (caught_is_generic rt request e Hthrow).
  assert (Hrun : handler rt request
                 = ((attempt ++ [EvConsoleError e;
                                 EvRespond 200 (JObj [("data", generic_error)])])%list,
                    Ok tt)).
  { unfold handler. rewrite Hdata. cbn [bind emit]. now rewrite <- app_assoc. }
  split; [exact Hdata|]. split; [exact Hrun|].
  rewrite Hrun. cbn [trace fst]. split.
  - rewrite logged_errors_app. reflexivity.
  - rewrite responses_app. reflexivity.
Qed.

Lemma failure_is_generic_witness :
  responses (trace (handler
                      (Samples.runtime (Ok Samples.explorer_answer)
                                       (Ok Samples.completion_unavailable))
                      (Samples.request_on "1" Samples.transfer_call)))
  = [(200, JObj [("data", JObj [("error", JStr "An Error Occurred")])])]
  /\ logged_errors (trace (handler
                      (Samples.runtime (Ok Samples.explorer_answer)
                                       (Ok Samples.completion_unavailable))
                      (Samples.request_on "1" Samples.transfer_call)))
     = [Error "Failed to get GPT completion."].
Proof.
  destruct (failure_is_generic
              (Samples.runtime (Ok Samples.explorer_answer)
                               (Ok Samples.completion_unavailable))
              (Samples.request_on "1" Samples.transfer_call)
              (Error "Failed to get GPT completion."))
    as (_ & _ & Hlogged & Hresponses); [reflexivity|].
  split; [exact Hresponses | exact Hlogged].
Defined.

End CompletionFacts.

(* ===================================================================== *)
(** ** The Lens profile endpoint: properties *)
(* ===================================================================== *)

Module LensProfileFacts.
Import Js LensProfile EffFacts.
Local Open Scope string_scope.
Local Open Scope eff_scope.

Lemma getDefaultProfileRequest_trace rt request :
  trace (getDefaultProfileRequest rt request)
  = [EvApolloQuery (JObj [("request", request)])].
Proof.
  unfold getDefaultProfileRequest. rewrite bind_emit. cbn [trace fst]. f_equal.
  destruct (apollo_query rt (JObj [("request", request)])) as [result|e];
    [rewrite bind_lift_ok | reflexivity].
  destruct (get_prop result "data") as [data|e];
    [rewrite bind_lift_ok | reflexivity].
  reflexivity.
Qed.

(** The run of [getDefaultProfile] once the lookup has completed. *)
Lemma getDefaultProfile_completed rt req result :
  outcome (getDefaultProfileRequest rt (JObj [("ethereumAddress", walletAddress req)]))
  = Ok result ->
  getDefaultProfile rt req
  = ([ EvApolloQuery (JObj [("request", JObj [("ethereumAddress", walletAddress req)])]);
       EvConsoleLog [JStr "profiles: result"; result];
       EvRespond 200 (expected_body (walletAddress req)) ],
     Ok tt).
Proof.
  intros Hlookup. unfold getDefaultProfile.
  rewrite (eta (getDefaultProfileRequest rt _)), Hlookup, getDefaultProfileRequest_trace.
  unfold expected_body.
  destruct (strict_eq_str (walletAddress req)
              "0xd19B53464bBD3289823b278efb0461a903271004"); reflexivity.
Qed.

(** A lookup that fails leaves the request without a response. *)
Lemma getDefaultProfile_failed rt req e :
  outcome (getDefaultProfileRequest rt (JObj [("ethereumAddress", walletAddress req)]))
  = Throw e ->
  responses (trace (getDefaultProfile rt req)) = [].
Proof.
  intros Hlookup. unfold getDefaultProfile.
  rewrite (trace_bind_throw _ _ _ Hlookup), getDefaultProfileRequest_trace.
  reflexivity.
Qed.

(** C10.  The response of [getDefaultProfile] is the status 200 with a
    body whose handle is [yusaka.test] when the [walletAddress] of the
    query is the constant address and [sakasaka.test] otherwise.  What
    the profile service answered is not in it: two runs on the same
    request in which the service answers differently respond the
    same. *)
Theorem profile_response_ignores_lookup rt1 rt2 req result1 result2 :
  outcome (getDefaultProfileRequest rt1 (JObj [("ethereumAddress", walletAddress req)]))
  = Ok result1 ->
  outcome (getDefaultProfileRequest rt2 (JObj [("ethereumAddress", walletAddress req)]))
  = Ok result2 ->
  responses (trace (getDefaultProfile rt1 req))
  = [(200, JObj [("data",
                  JObj [("handle",
                         JStr (if strict_eq_str (walletAddress req)
                                    "0xd19B53464bBD3289823b278efb0461a903271004"
                               then "yusaka.test" else "sakasaka.test"))])])]
  /\ responses (trace (getDefaultProfile rt2 req))
     = responses (trace (getDefaultProfile rt1 req)).
Proof.
  intros H1 H2.
  rewrite (getDefaultProfile_completed _ _ _ H1), (getDefaultProfile_completed _ _ _ H2).
  split; reflexivity.
Qed.

Lemma profile_response_ignores_lookup_witness :
  responses (trace (getDefaultProfile (Samples.profile_service (Ok Samples.profile_found))
                      (Samples.profile_request "0xd19B53464bBD3289823b278efb0461a903271004")))
  = [(200, JObj [("data", JObj [("handle", JStr "yusaka.test")])])]
  /\ responses (trace (getDefaultProfile (Samples.profile_service (Ok Samples.profile_absent))
                         (Samples.profile_request "0xd19B53464bBD3289823b278efb0461a903271004")))
     = responses (trace (getDefaultProfile (Samples.profile_service (Ok Samples.profile_found))
                         (Samples.profile_request "0xd19B53464bBD3289823b278efb0461a903271004"))).
Proof.
  apply (profile_response_ignores_lookup
           (Samples.profile_service (Ok Samples.profile_found))
           (Samples.profile_service (Ok Samples.profile_absent))
           (Samples.profile_request "0xd19B53464bBD3289823b278efb0461a903271004")
           (JObj [("handle", JStr "alice.lens")]) JNull); reflexivity.
Defined.

(** Whatever the service does, a run responds at most once, and then
    with the body fixed by the request. *)
Lemma profile_responses rt req :
  responses (trace (getDefaultProfile rt req)) = []
  \/ responses (trace (getDefaultProfile rt req))
     = [(200, expected_body (walletAddress req))].
Proof.
  destruct (outcome (getDefaultProfileRequest rt
                       (JObj [("ethereumAddress", walletAddress req)]))) as [result|e] eqn:H.
  - right. now rewrite (getDefaultProfile_completed _ _ _ H).
  - left. exact (getDefaultProfile_failed _ _ _ H).
Qed.

(** The endpoint answers a GET with the responses of
    [getDefaultProfile], and any other method with 405. *)
Lemma handler_responses rt req :
  responses (trace (handler rt req))
  = if String.eqb (method req) "GET"
    then responses (trace (getDefaultProfile rt req))
    else [(405, JStr ("Method " ++ method req ++ " Not Allowed"))].
Proof. unfold handler. destruct (String.eqb (method req) "GET"); reflexivity. Qed.

End LensProfileFacts.

(* ===================================================================== *)
(** ** The wallet plugin: properties *)
(* ===================================================================== *)

Module SnapFacts.
Import Js Snap EffFacts.
Local Open Scope string_scope.
Local Open Scope eff_scope.

(* --------------------------------------------------------------------- *)
(** *** [Promise.all] *)
(* --------------------------------------------------------------------- *)

Section PromiseAll.
Context {A : Type} (settles : nat -> nat).

Lemma first_rejection_in (rs : list (Res A)) :
  forall i t e, first_rejection i settles rs = Some (t, e) -> In (Throw e) rs.
Proof.
  induction rs as [|[a|e'] rs IH]; intros i t e; cbn [first_rejection].
  - discriminate.
  - intros H. right. exact (IH _ _ _ H).
  - destruct (first_rejection (S i) settles rs) as [[t' e'']|] eqn:Hrest.
    + unfold earlier. cbn [fst].
      destruct (t' <? settles i)%nat; intros [= <- <-].
      * right. exact (IH _ _ _ Hrest).
      * now left.
    + intros [= <- <-]. now left.
Qed.

Lemma first_rejection_none (rs : list (Res A)) :
  forall i, first_rejection i settles rs = None -> rs = map Ok (fulfilled rs).
Proof.
  induction rs as [|[a|e] rs IH]; intros i; cbn [first_rejection fulfilled map].
  - reflexivity.
  - intros H. f_equal. exact (IH _ H).
  - destruct (first_rejection (S i) settles rs); discriminate.
Qed.

Lemma first_rejection_some (rs : list (Res A)) :
  forall i e, In (Throw e) rs -> first_rejection i settles rs <> None.
Proof.
  induction rs as [|[a|e'] rs IH]; intros i e; cbn [first_rejection].
  - contradiction.
  - intros [H|H]; [discriminate | exact (IH _ _ H)].
  - intros _. destruct (first_rejection (S i) settles rs); discriminate.
Qed.

(** Every call has been made, whatever the completions. *)
Lemma Promise_all_trace (promises : list (Eff A)) :
  trace (Promise_all settles promises) = List.concat (map trace promises).
Proof. reflexivity. Qed.

(** One rejection rejects the whole, with the reason of one of the
    rejected promises. *)
Lemma Promise_all_rejects (promises : list (Eff A)) (e : Exn) :
  In (Throw e) (map outcome promises) ->
  exists e', outcome (Promise_all settles promises) = Throw e'
             /\ In (Throw e') (map outcome promises).
Proof.
  intros Hin. unfold Promise_all. cbn [outcome snd].
  destruct (first_rejection 0 settles (map outcome promises)) as [[t e']|] eqn:H.
  - exists e'. split; [reflexivity | exact (first_rejection_in _ _ _ _ H)].
  - now apply first_rejection_some with (i := 0) in Hin.
Qed.

(** The whole is fulfilled only when every promise is. *)
Lemma Promise_all_fulfils (promises : list (Eff A)) (values : list A) :
  outcome (Promise_all settles promises) = Ok values ->
  map outcome promises = map Ok values.
Proof.
  unfold Promise_all. cbn [outcome snd].
  destruct (first_rejection 0 settles (map outcome promises)) as [[t e']|] eqn:H;
    [discriminate|].
  intros [= <-]. exact (first_rejection_none _ _ H).
Qed.

End PromiseAll.

(* --------------------------------------------------------------------- *)
(** *** The lookups *)
(* --------------------------------------------------------------------- *)

Lemma fetch_json_trace host url : trace (fetch_json host url) = [EvFetch url].
Proof.
  unfold fetch_json. rewrite bind_emit. cbn [trace fst]. f_equal.
  destruct (fetch host url) as [response|e]; [rewrite bind_lift_ok | reflexivity].
  destruct (ok response); reflexivity.
Qed.

(** A lookup fails when the request is rejected, when the status is not
    a success, and when the body is not JSON. *)
Lemma fetch_json_outcome host url :
  outcome (fetch_json host url)
  = match fetch host url with
    | Throw e => Throw e
    | Ok response =>
        if ok response then json response
        else Throw (Error ("HTTP error! Status: " ++ nat_to_string (status response)))
    end.
Proof.
  unfold fetch_json. rewrite bind_emit. cbn [outcome snd].
  destruct (fetch host url) as [response|e]; [rewrite bind_lift_ok | reflexivity].
  destruct (ok response); reflexivity.
Qed.

Lemma lookups_app (t1 t2 : list Event) :
  lookups (t1 ++ t2)%list = (lookups t1 ++ lookups t2)%list.
Proof.
  induction t1 as [|ev t1 IH]; [reflexivity|].
  destruct ev; simpl; rewrite IH; reflexivity.
Qed.

(* --------------------------------------------------------------------- *)
(** *** [onTransaction] *)
(* --------------------------------------------------------------------- *)

(** The handler, with the lookups named and the branch on the constant
    flag decided: whatever the lookups returned, what follows them is
    the return of the "not a unique human" panel. *)
Lemma onTransaction_steps host chainId transaction :
  onTransaction host chainId transaction
  = (emit EvManageStateGet ;;;
     worldId <- lift (read_undeclared host "worldId") ;;
     emit (EvConsoleLog [JStr "worldId"; worldId]) ;;;
     if negb (truthy (stored_state host)) then ret not_human else
     if missing (from transaction) || missing (to transaction)
        || missing (data transaction) || String.eqb chainId ""
     then throw (Error "Missing required parameters")
     else
       let extractedChainId := template (nth_error (split chainId ":") 1) in
       Promise_all (settles_at host)
         [ getLensProfile host (template (from transaction));
           getLensApprovedAddressList host (template (from transaction))
             (template (to transaction)) (template (data transaction)) extractedChainId;
           getGptCompletion host (template (to transaction))
             (template (data transaction)) extractedChainId ] ;;;
       ret not_human).
Proof. reflexivity. Qed.




(** The completions of [onTransaction] on a wallet in which the log
    statement succeeds. *)
Lemma onTransaction_outcome host chainId transaction insight :
  outcome (onTransaction host chainId transaction) = Ok insight ->
  insight = not_human.
Proof.
  rewrite onTransaction_steps, bind_emit. cbn [outcome snd].
  destruct (read_undeclared host "worldId") as [worldId|e];
    [rewrite bind_lift_ok | discriminate].
  rewrite bind_emit. cbn [snd].
  destruct (truthy (stored_state host)); cbn [negb].
  2: { now intros [= <-]. }
  destruct (missing (from transaction) || missing (to transaction)
            || missing (data transaction) || String.eqb chainId ""); [discriminate|].
  cbv zeta.
  match goal with
  | |- context [bind ?p _] => destruct p as [t [values|e]]
  end; cbn; [now intros [= <-] | discriminate].
Qed.

(** C2.  The verification flag is the constant [false]: whenever
    [onTransaction] returns, it returns the "Not a unique human" panel,
    never the panel of the Lens and GPT insights. *)
Theorem insights_panel_unreachable host chainId transaction insight :
  outcome (onTransaction host chainId transaction) = Ok insight ->
  insight = not_human
  /\ forall handle approved completion,
       insight <> insights handle approved completion.
Proof.
  intros Hout. apply onTransaction_outcome in Hout. subst insight.
  split; [reflexivity | discriminate].
Qed.

Lemma insights_panel_unreachable_witness :
  outcome (onTransaction
             (Samples.wallet (Some JUndefined) Samples.verified_state
                (Ok (Samples.json_response (JObj [("data", JStr "It transfers tokens.")]))))
             "eip155:1" Samples.pending)
  = Ok not_human
  /\ forall handle approved completion,
       not_human <> insights handle approved completion.
Proof.
  split; [reflexivity|].
  apply (insights_panel_unreachable
           (Samples.wallet (Some JUndefined) Samples.verified_state
              (Ok (Samples.json_response (JObj [("data", JStr "It transfers tokens.")]))))
           "eip155:1" Samples.pending not_human). reflexivity.
Defined.

(** C7.  A run of [onTransaction] that makes a lookup makes all three,
    and their completions are joined all or nothing: when any of the
    three fails the handler fails, with the error of a failed lookup,
    and when the handler returns a panel each of the three has returned
    its value. *)
Theorem lookups_all_or_nothing host chainId transaction :
  let extractedChainId := template (nth_error (split chainId ":") 1) in
  let profile := getLensProfile host (template (from transaction)) in
  let approved :=
    getLensApprovedAddressList host (template (from transaction))
      (template (to transaction)) (template (data transaction)) extractedChainId in
  let completion :=
    getGptCompletion host (template (to transaction)) (template (data transaction))
      extractedChainId in
  let run := onTransaction host chainId transaction in
  0 < length (lookups (trace run)) ->
  lookups (trace run)
  = lookups (trace profile ++ trace approved ++ trace completion)%list
  /\ (forall e,
        In (Throw e) [outcome profile; outcome approved; outcome completion] ->
        exists e', outcome run = Throw e'
                   /\ In (Throw e') [outcome profile; outcome approved; outcome completion])
  /\ (forall insight,
        outcome run = Ok insight ->
        exists v1 v2 v3,
          outcome profile = Ok v1 /\ outcome approved = Ok v2
          /\ outcome completion = Ok v3).
Proof.
  intros extractedChainId profile approved completion run.
  assert (Hrun : run
    = (emit EvManageStateGet ;;;
       worldId <- lift (read_undeclared host "worldId") ;;
       emit (EvConsoleLog [JStr "worldId"; worldId]) ;;;
       if negb (truthy (stored_state host)) then ret not_human else
       if missing (from transaction) || missing (to transaction)
          || missing (data transaction) || String.eqb chainId ""
       then throw (Error "Missing required parameters")
       else Promise_all (settles_at host) [profile; approved; completion] ;;;
            ret not_human))
    by reflexivity.
  clearbody run profile approved completion. subst run.
  rewrite bind_emit. cbn [trace outcome fst snd lookups].
  destruct (read_undeclared host "worldId") as [worldId|e];
    [rewrite bind_lift_ok | cbn; lia].
  rewrite bind_emit. cbn [trace outcome fst snd lookups].
  destruct (truthy (stored_state host)); cbn [negb]; [|cbn; lia].
  destruct (missing (from transaction) || missing (to transaction)
            || missing (data transaction) || String.eqb chainId ""); [cbn; lia|].
  intros _.
  set (joined := Promise_all (settles_at host) [profile; approved; completion]).
  assert (Htrace : trace (joined ;;; ret not_human)
                   = (trace profile ++ trace approved ++ trace completion)%list).
  { destruct (outcome joined) as [values|e] eqn:Hjoined.
    - rewrite (trace_bind_ok _ _ _ Hjoined). unfold joined.
      rewrite Promise_all_trace. cbn. now rewrite !app_nil_r.
    - rewrite (trace_bind_throw _ _ _ Hjoined). unfold joined.
      rewrite Promise_all_trace. cbn. now rewrite !app_nil_r. }
  split; [now rewrite Htrace|]. split.
  - intros e Hin.
    destruct (Promise_all_rejects (settles_at host) [profile; approved; completion] e Hin)
      as (e' & Hrejected & Hin').
    exists e'. split; [|exact Hin'].
    exact (outcome_bind_throw _ _ _ Hrejected).
  - intros insight Hout.
    destruct (outcome joined) as [values|e] eqn:Hjoined.
    + apply Promise_all_fulfils in Hjoined. cbn [map] in Hjoined.
      destruct values as [|v1 [|v2 [|v3 [|]]]]; try discriminate.
      injection Hjoined as H1 H2 H3. now exists v1, v2, v3.
    + rewrite (outcome_bind_throw _ _ _ Hjoined) in Hout. discriminate.
Qed.

Lemma lookups_all_or_nothing_witness :
  exists e,
    outcome (onTransaction
               (Samples.wallet (Some JUndefined) Samples.verified_state
                               (Ok Samples.server_error))
               "eip155:1" Samples.pending) = Throw e
    /\ length (lookups (trace (onTransaction
                 (Samples.wallet (Some JUndefined) Samples.verified_state
                                 (Ok Samples.server_error))
                 "eip155:1" Samples.pending))) = 3.
Proof.
  destruct (lookups_all_or_nothing
              (Samples.wallet (Some JUndefined) Samples.verified_state
                              (Ok Samples.server_error))
              "eip155:1" Samples.pending)
    as (Hall & Hfail & _).
  - vm_compute. lia.
  - destruct (Hfail (Error "HTTP error! Status: 500")) as (e & He & _).
    + right. right. left. reflexivity.
    + exists e. split; [exact He|]. rewrite Hall. reflexivity.
Defined.

(** The three lookups succeed, and the panel is still the "Not a unique
    human" one; the completion endpoint fails alone, and nothing of the
    other two lookups is rendered. *)
Example all_lookups_succeed :
  onTransaction
    (Samples.wallet (Some JUndefined) Samples.verified_state
       (Ok (Samples.json_response (JObj [("data", JStr "It transfers tokens.")]))))
    "eip155:1" Samples.pending
  = ([ EvManageStateGet;
       EvConsoleLog [JStr "worldId"; JUndefined];
       EvFetch "https://eth-tokyo-social-security-snap-app.vercel.app/api/lens/profile?walletAddress=0xd19B53464bBD3289823b278efb0461a903271004";
       EvFetch "https://eth-tokyo-social-security-snap-app.vercel.app/api/lens/following?walletAddress=0xd19B53464bBD3289823b278efb0461a903271004&contractAddress=0xABC&inputData=0xa9059cbb&chainId=1";
       EvFetch "https://eth-tokyo-social-security-snap-app.vercel.app/api/gpt/completion?contractAddress=0xABC&inputData=0xa9059cbb&chainId=1" ],
     Ok not_human).
Proof. reflexivity. Qed.

Example one_lookup_fails :
  outcome (onTransaction
             (Samples.wallet (Some JUndefined) Samples.verified_state
                             (Ok Samples.server_error))
             "eip155:1" Samples.pending)
  = Throw (Error "HTTP error! Status: 500").
Proof. reflexivity. Qed.

End SnapFacts.

(* ===================================================================== *)
(** ** The completion endpoint: further properties *)
(* ===================================================================== *)

Module CompletionMore.
Import Js Completion Observe CompletionParts EffFacts StringFacts CompletionFacts.
Local Open Scope string_scope.
Local Open Scope eff_scope.

(* --------------------------------------------------------------------- *)
(** *** Traces *)
(* --------------------------------------------------------------------- *)

Lemma trace_bind {A B} (m : Eff A) (k : A -> Eff B) :
  trace (bind m k)
  = (trace m ++ match outcome m with
                | Ok a => trace (k a)
                | Throw _ => []
                end)%list.
Proof.
  destruct m as [t [a|e]]; cbn [trace outcome fst snd bind].
  - destruct (k a); reflexivity.
  - now rewrite app_nil_r.
Qed.

Lemma outcome_bind {A B} (m : Eff A) (k : A -> Eff B) :
  outcome (bind m k)
  = match outcome m with
    | Ok a => outcome (k a)
    | Throw e => Throw e
    end.
Proof.
  destruct m as [t [a|e]]; cbn [trace outcome fst snd bind].
  - destruct (k a); reflexivity.
  - reflexivity.
Qed.

Section Never.
Variable excluded : Event -> bool.

Lemma never_ret {A} (a : A) : never excluded (ret a).
Proof. constructor. Qed.

Lemma never_throw {A} (e : Exn) : never excluded (@throw A e).
Proof. constructor. Qed.

Lemma never_lift {A} (r : Res A) : never excluded (lift r).
Proof. constructor. Qed.

Lemma never_emit (ev : Event) : excluded ev = false -> never excluded (emit ev).
Proof. intros H. constructor; [exact H | constructor]. Qed.

Lemma never_bind {A B} (m : Eff A) (k : A -> Eff B) :
  never excluded m -> (forall a, never excluded (k a)) -> never excluded (bind m k).
Proof.
  unfold never. intros Hm Hk. rewrite trace_bind. apply Forall_app. split; [exact Hm|].
  destruct (outcome m); [apply Hk | constructor].
Qed.

Lemma never_try_catch {A} (body : Eff A) (handler : Exn -> Eff A) :
  never excluded body -> (forall e, never excluded (handler e)) ->
  never excluded (try_catch body handler).
Proof.
  unfold never. destruct body as [t [a|e]]; cbn [try_catch trace fst]; intros Hb Hh.
  - exact Hb.
  - specialize (Hh e). destruct (handler e) as [t' r]. cbn [trace fst] in *.
    apply Forall_app. now split.
Qed.

End Never.

Lemma never_response {A} (m : Eff A) :
  never is_response m -> responses (trace m) = [].
Proof.
  unfold never. induction 1 as [|ev t Hev _ IH]; [reflexivity|].
  destruct ev; try discriminate; exact IH.
Qed.

Lemma never_completion_request {A} (m : Eff A) :
  never is_completion_request m -> completion_requests (trace m) = [].
Proof.
  unfold never. induction 1 as [|ev t Hev _ IH]; [reflexivity|].
  destruct ev; try discriminate; exact IH.
Qed.

Lemma never_console_error {A} (m : Eff A) :
  never is_console_error m -> logged_errors (trace m) = [].
Proof.
  unfold never. induction 1 as [|ev t Hev _ IH]; [reflexivity|].
  destruct ev; try discriminate; exact IH.
Qed.

Lemma never_explorer_request {A} (m : Eff A) :
  never is_explorer_request m -> explorer_requests (trace m) = [].
Proof.
  unfold never. induction 1 as [|ev t Hev _ IH]; [reflexivity|].
  destruct ev; try discriminate; exact IH.
Qed.

Lemma explorer_requests_app (t1 t2 : list Event) :
  explorer_requests (t1 ++ t2)%list = (explorer_requests t1 ++ explorer_requests t2)%list.
Proof.
  induction t1 as [|ev t1 IH]; [reflexivity|].
  destruct ev; simpl; rewrite IH; reflexivity.
Qed.

Lemma getContractDetails_never rt chainId contractAddress excluded :
  (forall uri, excluded (EvAxiosGet uri) = false) ->
  (forall args, excluded (EvConsoleLog args) = false) ->
  never excluded (getContractDetails rt chainId contractAddress).
Proof.
  intros Hget Hlog. unfold getContractDetails, getContractDetailsApiEndpoint.
  repeat first
    [ apply never_ret | apply never_throw | apply never_lift
    | apply never_emit; first [apply Hget | apply Hlog]
    | apply never_bind; [ | intros ]
    | match goal with
      | |- never _ (if ?b then _ else _) => destruct b
      | |- never _ (match ?x with _ => _ end) => destruct x
      end ].
Qed.

Lemma getContractFunctionDetails_never rt inputData contractABI excluded :
  (forall args, excluded (EvConsoleLog args) = false) ->
  never excluded (getContractFunctionDetails rt inputData contractABI).
Proof.
  intros Hlog. unfold getContractFunctionDetails.
  repeat first
    [ apply never_ret | apply never_throw | apply never_lift
    | apply never_emit; apply Hlog
    | apply never_bind; [ | intros ]
    | match goal with
      | |- never _ (if ?b then _ else _) => destruct b
      | |- never _ (match ?x with _ => _ end) => destruct x
      end ].
Qed.

Lemma getFunctionSourceCode_never rt contractCode functionName excluded :
  (forall args, excluded (EvConsoleLog args) = false) ->
  never excluded (getFunctionSourceCode rt contractCode functionName).
Proof.
  intros Hlog. unfold getFunctionSourceCode.
  repeat first
    [ apply never_ret | apply never_throw | apply never_lift
    | apply never_emit; apply Hlog
    | apply never_bind; [ | intros ]
    | match goal with
      | |- never _ (if ?b then _ else _) => destruct b
      end ].
Qed.

(* --------------------------------------------------------------------- *)
(** *** The metadata lookup *)
(* --------------------------------------------------------------------- *)

Lemma case_is_true chainId z : case_is chainId z = true <-> chainId = Int z.
Proof.
  destruct chainId as [z'| |]; cbn; try (split; discriminate).
  rewrite Z.eqb_eq. split; [now intros -> | now intros [= ->]].
Qed.

Lemma supported_iff chainId :
  supported chainId = true <-> In chainId (map Int supported_chains).
Proof.
  unfold supported. rewrite existsb_exists, in_map_iff. split.
  - intros (z & Hin & Hcase). apply case_is_true in Hcase. now exists z.
  - intros (z & <- & Hin). exists z. split; [exact Hin | now apply case_is_true].
Qed.

Lemma unsupported_cases chainId :
  ~ In chainId (map Int supported_chains) ->
  forall z, In z supported_chains -> case_is chainId z = false.
Proof.
  intros Hnot z Hin. destruct (case_is chainId z) eqn:H; [|reflexivity].
  exfalso. apply Hnot. apply case_is_true in H. subst. now apply in_map.
Qed.

(** X1.  [getContractDetailsApiEndpoint] knows five chains: 1, 5, 137,
    59140 and 80001.  For each of them it gives an address of the
    explorer that carries the contract address; for any other chain id,
    a number or not, [getContractDetails] writes one line to the console
    and answers "not verified" without any request. *)
Theorem explorer_for_supported_chains_only rt chainId contractAddress :
  (In chainId (map Int supported_chains) ->
   exists uri,
     getContractDetailsApiEndpoint rt chainId contractAddress = ([], Ok (Some uri))
     /\ substring_of ("&address=" ++ ToString rt contractAddress) uri)
  /\ (~ In chainId (map Int supported_chains) ->
      getContractDetails rt chainId contractAddress
      = ([EvConsoleLog [JStr "ChainId not supported."]], Ok None)).
Proof.
  split.
  - intros Hin. cbn in Hin.
    destruct Hin as [<-|[<-|[<-|[<-|[<-|[]]]]]];
      (eexists; split; [reflexivity|]).
    + exists "https://api.etherscan.io/api?module=contract&action=getsourcecode",
        ("&apikey=" ++ ToString rt (process_env rt "ETHERSCAN_API_KEY")).
      reflexivity.
    + exists "https://api-goerli.etherscan.io/api?module=contract&action=getsourcecode",
        ("&apikey=" ++ ToString rt (process_env rt "ETHERSCAN_API_KEY")).
      reflexivity.
    + exists "https://api.polygonscan.com/api?module=contract&action=getsourcecode",
        ("&apikey=" ++ ToString rt (process_env rt "POLYGONSCAN_API_KEY")).
      reflexivity.
    + exists "https://explorer.goerli.linea.build/api?module=contract&action=getsourcecode",
        "".
      rewrite append_nil_r. reflexivity.
    + exists "https://api-testnet.polygonscan.com/api?module=contract&action=getsourcecode",
        ("&apikey=" ++ ToString rt (process_env rt "POLYGONSCAN_API_KEY")).
      reflexivity.
  - intros Hnot.
    apply getContractDetails_unsupported_chain;
      apply (unsupported_cases _ Hnot); cbn; tauto.
Qed.

(** X2.  When [getContractDetails] returns details, the contract's name,
    source and ABI are all truthy (none is missing or empty), and the
    run is one request to the explorer. *)
Theorem details_are_complete rt chainId contractAddress details :
  outcome (getContractDetails rt chainId contractAddress) = Ok (Some details) ->
  truthy (contractName details) = true
  /\ truthy (contractCode details) = true
  /\ truthy (abi details) = true
  /\ exists uri, trace (getContractDetails rt chainId contractAddress) = [EvAxiosGet uri].
Proof.
  unfold getContractDetails.
  destruct (getContractDetailsApiEndpoint_cases rt chainId contractAddress)
    as [[uri ->] | ->]; [|discriminate].
  rewrite bind_lift_ok_ret, bind_emit. cbn [outcome trace fst snd].
  destruct (axios_get rt uri) as [response|e];
    [rewrite bind_lift_ok | discriminate].
  destruct (get_prop (data response) "result") as [result|e];
    [rewrite bind_lift_ok | discriminate].
  destruct (truthy result); cbn [negb]; [|discriminate].
  destruct (get_first result) as [first|e];
    [rewrite bind_lift_ok | discriminate].
  destruct (truthy first); cbn [negb]; [|discriminate].
  destruct (get_prop first "ContractName") as [n|e];
    [rewrite bind_lift_ok | discriminate].
  destruct (get_prop first "SourceCode") as [c|e];
    [rewrite bind_lift_ok | discriminate].
  destruct (get_prop first "ABI") as [a|e];
    [rewrite bind_lift_ok | discriminate].
  destruct (truthy n) eqn:Hn, (truthy c) eqn:Hc, (truthy a) eqn:Ha;
    cbn; try discriminate.
  intros [= <-]. cbn. do 3 (split; [assumption|]). now exists uri.
Qed.

(** The run that finds the details is one request. *)
Lemma details_trace rt chainId contractAddress details :
  outcome (getContractDetails rt chainId contractAddress) = Ok (Some details) ->
  exists uri, trace (getContractDetails rt chainId contractAddress) = [EvAxiosGet uri].
Proof.
  intros Hout.
  destruct (getContractDetailsApiEndpoint_cases rt chainId contractAddress)
    as [[uri Huri] | Hnone].
  - exists uri. unfold getContractDetails. rewrite Huri, bind_lift_ok_ret, bind_emit.
    cbn [trace fst]. f_equal.
    case_steps; reflexivity.
  - unfold getContractDetails in Hout. rewrite Hnone in Hout. discriminate.
Qed.

Lemma details_are_complete_witness :
  exists uri,
    trace (getContractDetails Samples.plain_runtime (Int 1) (JStr "0xABC"))
    = [EvAxiosGet uri].
Proof.
  apply (details_are_complete Samples.plain_runtime (Int 1) (JStr "0xABC")
           {| contractName := JStr "Token";
              contractCode := JStr Samples.token_source;
              abi := JStr Samples.token_abi_text |}).
  reflexivity.
Defined.

(** X3.  An answer of the explorer without a body ([null] or
    [undefined] data) is not taken for "not verified": reading its
    result throws a TypeError, and the endpoint answers the generic
    failure instead of the warning. *)
Theorem explorer_answer_without_body rt request uri response :
  getContractDetailsApiEndpoint rt (ToNumber rt (chainId request)) (contractAddress request)
  = ([], Ok (Some uri)) ->
  axios_get rt uri = Ok response ->
  data response = JNull \/ data response = JUndefined ->
  getResponseData rt request
  = ([EvAxiosGet uri;
      EvConsoleError
        (TypeError "Cannot read properties of null or undefined (reading 'result')")],
     Ok generic_error).
Proof.
  intros Huri Hget Hdata.
  assert (Htry : getResponseData_try rt (contractAddress request) (inputData request)
                   (ToNumber rt (chainId request))
                 = ([EvAxiosGet uri],
                    Throw (TypeError
                      "Cannot read properties of null or undefined (reading 'result')"))).
  { unfold getResponseData_try, getContractDetails.
    rewrite Huri, bind_lift_ok_ret, bind_emit, Hget, bind_lift_ok.
    destruct Hdata as [-> | ->]; reflexivity. }
  unfold getResponseData. rewrite Htry. reflexivity.
Qed.

Lemma explorer_answer_without_body_witness :
  getResponseData
    (Samples.runtime (Ok {| status := 200; data := JNull |}) (Ok Samples.completion_answer))
    (Samples.request_on "1" Samples.transfer_call)
  = ([EvAxiosGet "https://api.etherscan.io/api?module=contract&action=getsourcecode&address=0xABC&apikey=secret";
      EvConsoleError
        (TypeError "Cannot read properties of null or undefined (reading 'result')")],
     Ok generic_error).
Proof.
  apply (explorer_answer_without_body
           (Samples.runtime (Ok {| status := 200; data := JNull |})
                            (Ok Samples.completion_answer))
           (Samples.request_on "1" Samples.transfer_call)
           "https://api.etherscan.io/api?module=contract&action=getsourcecode&address=0xABC&apikey=secret"
           {| status := 200; data := JNull |});
    [reflexivity | reflexivity | left; reflexivity].
Defined.

(* --------------------------------------------------------------------- *)
(** *** The request to the completion service *)
(* --------------------------------------------------------------------- *)

(** The run of [getGptCompletion]: the request, and what its answer is
    made into. *)
Lemma getGptCompletion_run rt contractAddress contractName snippet details :
  getGptCompletion rt contractAddress contractName snippet details
  = ([EvAxiosPost (completion_uri rt)
        (completion_body (prompt rt contractAddress contractName snippet details))],
     match axios_post rt (completion_uri rt)
             (completion_body (prompt rt contractAddress contractName snippet details))
             (completion_config rt) with
     | Throw e => Throw e
     | Ok response =>
         if (status response =? 200)%nat
         then first_message_content (data response)
         else Throw (Error "Failed to get GPT completion.")
     end).
Proof.
  unfold getGptCompletion, completion_uri, completion_body, completion_config.
  rewrite bind_emit.
  match goal with
  | |- context [lift ?r] => destruct r as [response|e]
  end; [rewrite bind_lift_ok | reflexivity].
  destruct (status response =? 200)%nat; [|reflexivity].
  cbn [negb]. unfold first_message_content.
  destruct (get_prop (data response) "choices") as [choices|e];
    [rewrite bind_lift_ok | reflexivity].
  destruct (get_first choices) as [choice|e];
    [rewrite bind_lift_ok | reflexivity].
  destruct (get_prop choice "message") as [message|e];
    [rewrite bind_lift_ok | reflexivity].
  reflexivity.
Qed.

(** X4.  [getGptCompletion] sends exactly one request to the completion
    service, whatever the answer: nothing is retried.  It returns a
    value exactly when the answer has status 200 and
    [choices[0].message.content] can be read, and the value is that
    content; an answer with status 200 and an empty list of choices
    throws a TypeError. *)
Theorem completion_is_requested_once rt contractAddress contractName snippet details :
  let run := getGptCompletion rt contractAddress contractName snippet details in
  let body := completion_body (prompt rt contractAddress contractName snippet details) in
  trace run = [EvAxiosPost (completion_uri rt) body]
  /\ (forall content,
        outcome run = Ok content <->
        exists response,
          axios_post rt (completion_uri rt) body (completion_config rt) = Ok response
          /\ status response = 200
          /\ first_message_content (data response) = Ok content)
  /\ (forall response,
        axios_post rt (completion_uri rt) body (completion_config rt) = Ok response ->
        status response = 200 ->
        get_prop (data response) "choices" = Ok (JArr []) ->
        outcome run
        = Throw (TypeError
                   "Cannot read properties of null or undefined (reading 'message')")).
Proof.
  intros run body. subst run body. rewrite getGptCompletion_run.
  cbn [trace outcome fst snd]. split; [reflexivity|]. split.
  - intros content. split.
    + destruct (axios_post rt _ _ _) as [response|e]; [|discriminate].
      destruct (status response =? 200)%nat eqn:Hstatus; [|discriminate].
      intros Hcontent. exists response. apply Nat.eqb_eq in Hstatus. now repeat split.
    + intros (response & -> & Hstatus & Hcontent).
      apply Nat.eqb_eq in Hstatus. now rewrite Hstatus.
  - intros response -> Hstatus Hchoices.
    apply Nat.eqb_eq in Hstatus. rewrite Hstatus.
    unfold first_message_content. now rewrite Hchoices.
Qed.

(* --------------------------------------------------------------------- *)
(** *** Resolving the function call *)
(* --------------------------------------------------------------------- *)

Lemma strict_eq_str_true v s : strict_eq_str v s = true <-> v = JStr s.
Proof.
  destruct v; cbn; try (split; discriminate).
  rewrite String.eqb_eq. split; [now intros -> | now intros [= ->]].
Qed.

(** [find] gives the first item that is a function of the name, or
    [undefined]. *)
Lemma find_function_item_first functionName items :
  forall found,
    find_function_item functionName items = Ok found ->
    (found = JUndefined
     /\ forall item, In item items ->
          ~ (get_prop item "type" = Ok (JStr "function")
             /\ get_prop item "name" = Ok (JStr functionName)))
    \/ exists before after,
        items = (before ++ found :: after)%list
        /\ get_prop found "type" = Ok (JStr "function")
        /\ get_prop found "name" = Ok (JStr functionName)
        /\ forall item, In item before ->
             ~ (get_prop item "type" = Ok (JStr "function")
                /\ get_prop item "name" = Ok (JStr functionName)).
Proof.
  induction items as [|item items IH]; intros found; cbn [find_function_item].
  - intros [= <-]. left. split; [reflexivity | intros item []].
  - assert (Hskip :
      ~ (get_prop item "type" = Ok (JStr "function")
         /\ get_prop item "name" = Ok (JStr functionName)) ->
      find_function_item functionName items = Ok found ->
      (found = JUndefined
       /\ forall x, In x (item :: items) ->
            ~ (get_prop x "type" = Ok (JStr "function")
               /\ get_prop x "name" = Ok (JStr functionName)))
      \/ exists before after,
          (item :: items = before ++ found :: after)%list
          /\ get_prop found "type" = Ok (JStr "function")
          /\ get_prop found "name" = Ok (JStr functionName)
          /\ forall x, In x before ->
               ~ (get_prop x "type" = Ok (JStr "function")
                  /\ get_prop x "name" = Ok (JStr functionName))).
    { intros Hno Hrest.
      destruct (IH found Hrest)
        as [[-> Hnone] | (before & after & -> & Htype & Hname & Hfirst)].
      - left. split; [reflexivity|].
        intros x [<-|Hx]; [exact Hno | exact (Hnone x Hx)].
      - right. exists (item :: before), after.
        split; [reflexivity|]. split; [exact Htype|]. split; [exact Hname|].
        intros x [<-|Hx]; [exact Hno | exact (Hfirst x Hx)]. }
    destruct (get_prop item "type") as [ty|e] eqn:Hty; [|discriminate].
    destruct (strict_eq_str ty "function") eqn:Hfunction.
    + apply strict_eq_str_true in Hfunction. subst ty.
      destruct (get_prop item "name") as [nm|e] eqn:Hnm; [|discriminate].
      destruct (strict_eq_str nm functionName) eqn:Hname.
      * apply strict_eq_str_true in Hname. subst nm. intros [= <-].
        right. exists [], items. repeat split; try assumption. intros x [].
      * apply Hskip. intros [_ [= ->]].
        assert (strict_eq_str (JStr functionName) functionName = true)
          by now apply strict_eq_str_true.
        congruence.
    + apply Hskip. intros [[= ->] _]. discriminate.
Qed.

(** X5.  The ABI fragment that [getContractFunctionDetails] returns is
    looked up by name alone: it is the first item of the parsed ABI that
    is a function with the name of the decoded call, whatever its
    inputs, and the empty object when there is none. *)
Theorem function_abi_is_first_of_name rt inputData contractABI details :
  outcome (getContractFunctionDetails rt inputData contractABI) = Ok details ->
  functionAbi details = JObj []
  \/ exists before after,
      JSON_parse rt contractABI = Ok (JArr (before ++ functionAbi details :: after))
      /\ get_prop (functionAbi details) "type" = Ok (JStr "function")
      /\ get_prop (functionAbi details) "name" = Ok (JStr (functionName details))
      /\ forall item, In item before ->
           ~ (get_prop item "type" = Ok (JStr "function")
              /\ get_prop item "name" = Ok (JStr (functionName details))).
Proof.
  unfold getContractFunctionDetails.
  destruct (Interface_functions rt contractABI) as [fragments|e];
    [rewrite bind_lift_ok | discriminate].
  destruct (parseTransaction rt fragments inputData) as [[description|]|e];
    [rewrite bind_lift_ok | rewrite bind_lift_ok | discriminate].
  2: { intros [= <-]. now left. }
  destruct (JSON_parse rt contractABI) as [parsed|e];
    [rewrite bind_lift_ok | discriminate].
  destruct parsed as [ | | | | |items| ]; try discriminate.
  destruct (find_function_item (td_name description) items) as [found|e] eqn:Hfind;
    [rewrite bind_lift_ok | discriminate].
  apply find_function_item_first in Hfind.
  destruct (truthy found) eqn:Htruthy; cbn [negb].
  - rewrite bind_ret. intros [= <-]. cbn [functionAbi functionName].
    destruct Hfind as [[-> _] | (before & after & -> & Hrest)]; [discriminate|].
    right. now exists before, after.
  - rewrite bind_emit. intros [= <-]. now left.
Qed.

Lemma function_abi_is_first_of_name_witness :
  Samples.abi_item "transfer" = JObj []
  \/ exists before after,
      JSON_parse Samples.plain_runtime (JStr Samples.token_abi_text)
      = Ok (JArr (before ++ Samples.abi_item "transfer" :: after))
      /\ get_prop (Samples.abi_item "transfer") "type" = Ok (JStr "function")
      /\ get_prop (Samples.abi_item "transfer") "name" = Ok (JStr "transfer")
      /\ forall item, In item before ->
           ~ (get_prop item "type" = Ok (JStr "function")
              /\ get_prop item "name" = Ok (JStr "transfer")).
Proof.
  apply (function_abi_is_first_of_name Samples.plain_runtime Samples.transfer_call
           (JStr Samples.token_abi_text)
           {| functionName := "transfer";
              functionArgs := Samples.transfer_args;
              functionAbi := Samples.abi_item "transfer" |}).
  reflexivity.
Defined.

(* --------------------------------------------------------------------- *)
(** *** The snippet for a name that is not there, and for no name *)
(* --------------------------------------------------------------------- *)

Lemma filter_none {A} (keep : A -> bool) (l : list A) :
  (forall x, In x l -> keep x = false) -> filter keep l = [].
Proof.
  induction l as [|x l IH]; intros H; [reflexivity|].
  cbn. rewrite (H x (or_introl eq_refl)). apply IH. intros y Hy. apply H. now right.
Qed.

Lemma substring_of_trans (a b c : string) :
  substring_of a b -> substring_of b c -> substring_of a c.
Proof.
  intros (p1 & q1 & ->) (p2 & q2 & ->). exists (p2 ++ p1), (q1 ++ q2).
  now rewrite !append_assoc.
Qed.

Lemma name_before_brace_occurs w item : name_before_brace w item -> substring_of w item.
Proof.
  intros (pre & mid & post & -> & _). now exists pre, (mid ++ "{" ++ post).
Qed.

(** With the empty name the pattern asks for a brace alone. *)
Lemma no_name_keeps_braces item :
  name_then_brace "" item = is_substring "{" item.
Proof.
  apply eq_true_iff_eq. rewrite name_then_brace_iff, is_substring_iff. split.
  - intros (pre & mid & post & -> & _). cbn [append].
    exists (pre ++ mid), post. now rewrite append_assoc.
  - intros (pre & post & ->). exists pre, "", post.
    split; [reflexivity | apply on_one_line_empty].
Qed.

(** The whole run of [getFunctionSourceCode] for a name of word
    characters. *)
Lemma getFunctionSourceCode_word rt contractCode functionName :
  word_chars functionName = true ->
  getFunctionSourceCode rt contractCode functionName
  = ((if String.eqb (taken functionName (split contractCode "function")) ""
      then [EvConsoleLog [JStr ("Function '" ++ functionName
                                ++ "' not found in contract code.")]]
      else []),
     Ok (taken functionName (split contractCode "function"))).
Proof.
  intros Hw. unfold getFunctionSourceCode.
  rewrite (forEach_word _ _ _ Hw), bind_lift_ok. cbn [append]. fold (taken functionName (split contractCode "function")).
  destruct (String.eqb (taken functionName (split contractCode "function")) "").
  - rewrite bind_emit. reflexivity.
  - rewrite bind_ret. reflexivity.
Qed.

(** X6.  For a function name of word characters that does not occur in
    the contract code, [getFunctionSourceCode] returns the empty string
    and writes "not found" to the console. *)
Theorem absent_name_gives_empty_snippet rt contractCode functionName :
  word_chars functionName = true ->
  is_substring functionName contractCode = false ->
  getFunctionSourceCode rt contractCode functionName
  = ([EvConsoleLog [JStr ("Function '" ++ functionName
                          ++ "' not found in contract code.")]],
     Ok "").
Proof.
  intros Hw Habsent.
  assert (Hnone : taken functionName (split contractCode "function") = "").
  { unfold taken. rewrite filter_none; [reflexivity|].
    intros segment Hin. destruct (name_then_brace functionName segment) eqn:Hkeep;
      [|reflexivity].
    exfalso. apply name_then_brace_iff, name_before_brace_occurs in Hkeep.
    assert (Hsub : substring_of functionName contractCode).
    { apply (substring_of_trans _ segment); [exact Hkeep|].
      apply (split_substring _ "function"); [discriminate | exact Hin]. }
    apply is_substring_iff in Hsub. congruence. }
  rewrite (getFunctionSourceCode_word _ _ _ Hw), Hnone. reflexivity.
Qed.

Lemma absent_name_gives_empty_snippet_witness :
  getFunctionSourceCode Samples.plain_runtime Samples.token_source "mint"
  = ([EvConsoleLog [JStr "Function 'mint' not found in contract code."]], Ok "").
Proof.
  apply (absent_name_gives_empty_snippet Samples.plain_runtime Samples.token_source "mint");
    reflexivity.
Defined.

(* --------------------------------------------------------------------- *)
(** *** The pipeline *)
(* --------------------------------------------------------------------- *)

Lemma getContractFunctionDetails_no_match rt inputData contractABI fragments bytes :
  Interface_functions rt contractABI = Ok fragments ->
  getBytes rt inputData = Ok bytes ->
  no_selector_match fragments (hexlify (firstn 4 bytes)) = true ->
  getContractFunctionDetails rt inputData contractABI = ([], Ok no_details).
Proof.
  intros Habi Hbytes Hnone. unfold getContractFunctionDetails.
  rewrite Habi, bind_lift_ok.
  rewrite (parseTransaction_no_match _ _ _ _ Hbytes Hnone), bind_lift_ok.
  reflexivity.
Qed.

(** The [try] block once the contract's details are there, the call is
    resolved and the snippet is cut. *)
Lemma getResponseData_try_completion rt request details resolved code snippet :
  outcome (getContractDetails rt (ToNumber rt (chainId request))
             (contractAddress request)) = Ok (Some details) ->
  outcome (getContractFunctionDetails rt (inputData request) (abi details)) = Ok resolved ->
  contractCode details = JStr code ->
  outcome (getFunctionSourceCode rt code (functionName resolved)) = Ok snippet ->
  let completion := getGptCompletion rt (contractAddress request) (contractName details)
                      snippet resolved in
  getResponseData_try rt (contractAddress request) (inputData request)
    (ToNumber rt (chainId request))
  = ((trace (getContractDetails rt (ToNumber rt (chainId request)) (contractAddress request))
      ++ trace (getContractFunctionDetails rt (inputData request) (abi details))
      ++ trace (getFunctionSourceCode rt code (functionName resolved))
      ++ trace completion)%list,
     match outcome completion with
     | Ok content => Ok (JStr (ToString rt content))
     | Throw e => Throw e
     end).
Proof.
  intros Hdetails Hresolved Hcode Hsnippet completion.
  rewrite (eta (getResponseData_try _ _ _ _)). unfold getResponseData_try. f_equal.
  - rewrite trace_bind, Hdetails, trace_bind, Hresolved, Hcode, trace_bind, Hsnippet.
    rewrite trace_bind. fold completion.
    destruct (outcome completion); cbn; now rewrite ?app_nil_r.
  - rewrite outcome_bind, Hdetails, outcome_bind, Hresolved, Hcode, outcome_bind, Hsnippet.
    rewrite outcome_bind. fold completion.
    destruct (outcome completion); reflexivity.
Qed.

Lemma completion_requests_try_catch {A} (body : Eff A) (handler : Exn -> Eff A) :
  (forall e, completion_requests (trace (handler e)) = []) ->
  completion_requests (trace (try_catch body handler)) = completion_requests (trace body).
Proof.
  intros Hh. destruct body as [t [a|e]]; cbn [try_catch trace fst]; [reflexivity|].
  specialize (Hh e). destruct (handler e) as [t' r]. cbn [trace fst] in *.
  now rewrite completion_requests_app, Hh, app_nil_r.
Qed.

Lemma not_completion_request_log : forall args, is_completion_request (EvConsoleLog args) = false.
Proof. reflexivity. Qed.

Lemma not_completion_request_get : forall uri, is_completion_request (EvAxiosGet uri) = false.
Proof. reflexivity. Qed.

(** The requests to the completion service on that path. *)
Lemma completion_requests_on_path rt request details resolved code snippet :
  outcome (getContractDetails rt (ToNumber rt (chainId request))
             (contractAddress request)) = Ok (Some details) ->
  outcome (getContractFunctionDetails rt (inputData request) (abi details)) = Ok resolved ->
  contractCode details = JStr code ->
  outcome (getFunctionSourceCode rt code (functionName resolved)) = Ok snippet ->
  completion_requests (trace (getResponseData rt request))
  = [(completion_uri rt,
      completion_body (prompt rt (contractAddress request) (contractName details)
                              snippet resolved))].
Proof.
  intros Hdetails Hresolved Hcode Hsnippet. unfold getResponseData.
  rewrite completion_requests_try_catch by reflexivity.
  rewrite (getResponseData_try_completion _ _ _ _ _ _ Hdetails Hresolved Hcode Hsnippet).
  cbn [trace fst]. rewrite !completion_requests_app.
  rewrite (never_completion_request _
             (getContractDetails_never _ _ _ _ not_completion_request_get
                                       not_completion_request_log)).
  rewrite (never_completion_request _
             (getContractFunctionDetails_never _ _ _ _ not_completion_request_log)).
  rewrite (never_completion_request _
             (getFunctionSourceCode_never _ _ _ _ not_completion_request_log)).
  rewrite getGptCompletion_run. reflexivity.
Qed.

(** X7.  Call data whose selector matches no fragment does not stop the
    pipeline: [getResponseData] still asks the completion service, for
    the empty function name, with no arguments and the empty ABI, and
    with a snippet made of every segment of the source that has an
    opening brace. *)
Theorem unknown_selector_is_still_summarised rt request details code fragments bytes :
  outcome (getContractDetails rt (ToNumber rt (chainId request))
             (contractAddress request)) = Ok (Some details) ->
  contractCode details = JStr code ->
  Interface_functions rt (abi details) = Ok fragments ->
  getBytes rt (inputData request) = Ok bytes ->
  no_selector_match fragments (hexlify (firstn 4 bytes)) = true ->
  completion_requests (trace (getResponseData rt request))
  = [(completion_uri rt,
      completion_body
        (prompt rt (contractAddress request) (contractName details)
           (concat_all (filter (is_substring "{") (split code "function")))
           no_details))].
Proof.
  intros Hdetails Hcode Habi Hbytes Hnone.
  assert (Hresolved := getContractFunctionDetails_no_match _ _ _ _ _ Habi Hbytes Hnone).
  assert (Hsnippet : outcome (getFunctionSourceCode rt code "")
                     = Ok (concat_all (filter (is_substring "{") (split code "function")))).
  { rewrite (getFunctionSourceCode_word rt code "" eq_refl). cbn [outcome snd].
    unfold taken. f_equal. f_equal. apply filter_ext. exact no_name_keeps_braces. }
  apply (completion_requests_on_path rt request details no_details code); try assumption.
  now rewrite Hresolved.
Qed.

Lemma unknown_selector_is_still_summarised_witness :
  completion_requests
    (trace (getResponseData Samples.plain_runtime
              (Samples.request_on "1" Samples.unknown_call)))
  = [(completion_uri Samples.plain_runtime,
      completion_body
        (prompt Samples.plain_runtime (JStr "0xABC") (JStr "Token")
           (concat_all (filter (is_substring "{") (split Samples.token_source "function")))
           no_details))].
Proof.
  apply (unknown_selector_is_still_summarised Samples.plain_runtime
           (Samples.request_on "1" Samples.unknown_call)
           {| contractName := JStr "Token";
              contractCode := JStr Samples.token_source;
              abi := JStr Samples.token_abi_text |}
           Samples.token_source Samples.token_fragments [x12; x34; x56; x78]%byte);
    reflexivity.
Defined.

Lemma getGptCompletion_never rt contractAddress contractName snippet details excluded :
  (forall uri body, excluded (EvAxiosPost uri body) = false) ->
  never excluded (getGptCompletion rt contractAddress contractName snippet details).
Proof.
  intros Hpost. unfold never. rewrite getGptCompletion_run.
  constructor; [apply Hpost | constructor].
Qed.

Lemma getResponseData_never rt request excluded :
  (forall uri, excluded (EvAxiosGet uri) = false) ->
  (forall uri body, excluded (EvAxiosPost uri body) = false) ->
  (forall args, excluded (EvConsoleLog args) = false) ->
  (forall e, excluded (EvConsoleError e) = false) ->
  never excluded (getResponseData rt request).
Proof.
  intros Hget Hpost Hlog Herror. unfold getResponseData, getResponseData_try.
  apply never_try_catch.
  - apply never_bind; [now apply getContractDetails_never|].
    intros [details|]; [|apply never_ret].
    apply never_bind; [now apply getContractFunctionDetails_never|]. intros resolved.
    apply never_bind.
    + destruct (contractCode details);
        first [apply never_throw | now apply getFunctionSourceCode_never].
    + intros snippet. apply never_bind; [now apply getGptCompletion_never|].
      intros completion. apply never_ret.
  - intros e. apply never_bind; [apply never_emit, Herror | intros; apply never_ret].
Qed.

(** What the [try] block returns is a string. *)
Lemma getResponseData_try_returns_string rt contractAddress inputData chainId v :
  outcome (getResponseData_try rt contractAddress inputData chainId) = Ok v ->
  exists s, v = JStr s.
Proof.
  unfold getResponseData_try. rewrite outcome_bind.
  destruct (outcome (getContractDetails rt chainId contractAddress))
    as [[details|]|e]; [| |discriminate].
  - rewrite outcome_bind.
    destruct (outcome (getContractFunctionDetails rt inputData (abi details)))
      as [resolved|e]; [|discriminate].
    rewrite outcome_bind.
    match goal with
    | |- context [outcome ?m] => destruct (outcome m) as [snippet|e]
    end; [|discriminate].
    rewrite outcome_bind.
    match goal with
    | |- context [outcome ?m] => destruct (outcome m) as [completion|e]
    end; [|discriminate].
    intros [= <-]. eexists. reflexivity.
  - intros [= <-]. eexists. reflexivity.
Qed.

(** X8.  The handler of the completion endpoint answers every request
    once, with status 200, and never throws: the body is [{data: v}]
    where [v] is a string (the warning or the completion) or the generic
    failure object. *)
Theorem handler_answers_once_with_200 rt request :
  exists v,
    outcome (getResponseData rt request) = Ok v
    /\ (v = generic_error \/ exists s, v = JStr s)
    /\ handler rt request
       = ((trace (getResponseData rt request)
           ++ [EvRespond 200 (JObj [("data", v)])])%list,
          Ok tt)
    /\ responses (trace (handler rt request)) = [(200, JObj [("data", v)])].
Proof.
  assert (Hout : exists v, outcome (getResponseData rt request) = Ok v
                           /\ (v = generic_error \/ exists s, v = JStr s)).
  { unfold getResponseData.
    destruct (getResponseData_try rt (contractAddress request) (inputData request)
                (ToNumber rt (chainId request))) as [t [a|e]] eqn:Htry.
    - exists a. split; [reflexivity|]. right.
      apply (getResponseData_try_returns_string rt (contractAddress request)
               (inputData request) (ToNumber rt (chainId request))).
      now rewrite Htry.
    - exists generic_error. split; [reflexivity | now left]. }
  destruct Hout as (v & Hout & Hshape). exists v.
  assert (Hrun : handler rt request
                 = ((trace (getResponseData rt request)
                     ++ [EvRespond 200 (JObj [("data", v)])])%list,
                    Ok tt)).
  { unfold handler. rewrite (eta (bind _ _)), trace_bind, outcome_bind, Hout.
    reflexivity. }
  repeat split; try assumption.
  rewrite Hrun. cbn [trace fst]. rewrite responses_app.
  rewrite (never_response _ (getResponseData_never rt request is_response
             (fun _ => eq_refl) (fun _ _ => eq_refl) (fun _ => eq_refl)
             (fun _ => eq_refl))).
  reflexivity.
Qed.

(** X9.  When the contract is verified, the call is resolved, the
    snippet is cut and the completion service answers with status 200
    and a first message, the endpoint answers 200 with the content of
    that message (as a string) as data, after one request to the
    explorer and one to the completion service, whose prompt is
    built from the contract address, the contract's name, the snippet
    and the resolved call; no error is written to the console. *)
Theorem verified_call_is_summarised rt request details resolved code snippet response content :
  outcome (getContractDetails rt (ToNumber rt (chainId request))
             (contractAddress request)) = Ok (Some details) ->
  outcome (getContractFunctionDetails rt (inputData request) (abi details)) = Ok resolved ->
  contractCode details = JStr code ->
  outcome (getFunctionSourceCode rt code (functionName resolved)) = Ok snippet ->
  axios_post rt (completion_uri rt)
    (completion_body (prompt rt (contractAddress request) (contractName details)
                             snippet resolved))
    (completion_config rt) = Ok response ->
  status response = 200 ->
  first_message_content (data response) = Ok content ->
  responses (trace (handler rt request))
  = [(200, JObj [("data", JStr (ToString rt content))])]
  /\ completion_requests (trace (handler rt request))
     = [(completion_uri rt,
         completion_body (prompt rt (contractAddress request) (contractName details)
                                 snippet resolved))]
  /\ length (explorer_requests (trace (handler rt request))) = 1
  /\ logged_errors (trace (handler rt request)) = [].
Proof.
  intros Hdetails Hresolved Hcode Hsnippet Hpost Hstatus Hcontent.
  assert (Hcompletion :
            outcome (getGptCompletion rt (contractAddress request) (contractName details)
                       snippet resolved) = Ok content).
  { rewrite getGptCompletion_run. cbn [outcome snd]. rewrite Hpost.
    apply Nat.eqb_eq in Hstatus. now rewrite Hstatus. }
  assert (Htry := getResponseData_try_completion _ _ _ _ _ _
                    Hdetails Hresolved Hcode Hsnippet).
  cbv zeta in Htry. rewrite Hcompletion in Htry.
  assert (Hdata : getResponseData rt request
                  = (fst (getResponseData_try rt (contractAddress request)
                            (inputData request) (ToNumber rt (chainId request))),
                     Ok (JStr (ToString rt content)))).
  { unfold getResponseData. rewrite Htry. reflexivity. }
  assert (Hrun : handler rt request
                 = ((fst (getResponseData_try rt (contractAddress request)
                            (inputData request) (ToNumber rt (chainId request)))
                     ++ [EvRespond 200 (JObj [("data", JStr (ToString rt content))])])%list,
                    Ok tt)).
  { unfold handler. rewrite Hdata. cbn [bind emit]. reflexivity. }
  destruct (details_trace rt (ToNumber rt (chainId request)) (contractAddress request)
              details Hdetails) as [uri Huri].
  rewrite Hrun, Htry. cbn [trace fst]. rewrite Huri, getGptCompletion_run. cbn [fst].
  repeat split.
  - rewrite !responses_app.
    rewrite (never_response _ (getContractFunctionDetails_never _ _ _ is_response
                                 (fun _ => eq_refl))).
    rewrite (never_response _ (getFunctionSourceCode_never _ _ _ is_response
                                 (fun _ => eq_refl))).
    reflexivity.
  - rewrite !completion_requests_app.
    rewrite (never_completion_request _
               (getContractFunctionDetails_never _ _ _ _ not_completion_request_log)).
    rewrite (never_completion_request _
               (getFunctionSourceCode_never _ _ _ _ not_completion_request_log)).
    reflexivity.
  - rewrite !explorer_requests_app.
    rewrite (never_explorer_request _
               (getContractFunctionDetails_never _ _ _ is_explorer_request
                  (fun _ => eq_refl))).
    rewrite (never_explorer_request _
               (getFunctionSourceCode_never _ _ _ is_explorer_request
                  (fun _ => eq_refl))).
    reflexivity.
  - rewrite !logged_errors_app.
    rewrite (never_console_error _
               (getContractFunctionDetails_never _ _ _ is_console_error
                  (fun _ => eq_refl))).
    rewrite (never_console_error _
               (getFunctionSourceCode_never _ _ _ is_console_error
                  (fun _ => eq_refl))).
    reflexivity.
Qed.

Lemma verified_call_is_summarised_witness :
  responses (trace (handler Samples.plain_runtime
                      (Samples.request_on "1" Samples.transfer_call)))
  = [(200, JObj [("data", JStr "It transfers tokens.")])].
Proof.
  apply (verified_call_is_summarised Samples.plain_runtime
           (Samples.request_on "1" Samples.transfer_call)
           {| contractName := JStr "Token";
              contractCode := JStr Samples.token_source;
              abi := JStr Samples.token_abi_text |}
           {| functionName := "transfer";
              functionArgs := Samples.transfer_args;
              functionAbi := Samples.abi_item "transfer" |}
           Samples.token_source
           " transfer(address to, uint256 value) public returns (bool) { return true; } "
           Samples.completion_answer (JStr "It transfers tokens."));
    reflexivity.
Defined.

(** X17.  [getResponseData] asks the completion service at most once,
    and only for a verified contract whose source is a string, after
    the call has been resolved and the snippet cut; the prompt is built
    from these. *)
Theorem completion_asked_only_after_resolution rt request :
  let asked := completion_requests (trace (getResponseData rt request)) in
  length asked <= 1
  /\ (0 < length asked ->
      exists details resolved code snippet,
        outcome (getContractDetails rt (ToNumber rt (chainId request))
                   (contractAddress request)) = Ok (Some details)
        /\ outcome (getContractFunctionDetails rt (inputData request) (abi details))
           = Ok resolved
        /\ contractCode details = JStr code
        /\ outcome (getFunctionSourceCode rt code (functionName resolved)) = Ok snippet
        /\ asked
           = [(completion_uri rt,
               completion_body (prompt rt (contractAddress request) (contractName details)
                                       snippet resolved))]).
Proof.
  intros asked.
  assert (Hquiet : asked = []
                   \/ exists details resolved code snippet,
                       outcome (getContractDetails rt (ToNumber rt (chainId request))
                                  (contractAddress request)) = Ok (Some details)
                       /\ outcome (getContractFunctionDetails rt (inputData request)
                                     (abi details)) = Ok resolved
                       /\ contractCode details = JStr code
                       /\ outcome (getFunctionSourceCode rt code (functionName resolved))
                          = Ok snippet).
  { destruct (outcome (getContractDetails rt (ToNumber rt (chainId request))
                         (contractAddress request))) as [[details|]|e] eqn:Hdetails.
    - destruct (outcome (getContractFunctionDetails rt (inputData request) (abi details)))
        as [resolved|e] eqn:Hresolved.
      + destruct (contractCode details) as [ | | | |code| | ] eqn:Hcode.
        5: { destruct (outcome (getFunctionSourceCode rt code (functionName resolved)))
               as [snippet|e] eqn:Hsnippet.
             - right. now exists details, resolved, code, snippet.
             - left. unfold asked, getResponseData.
               rewrite completion_requests_try_catch by reflexivity.
               unfold getResponseData_try.
               rewrite trace_bind, Hdetails, trace_bind, Hresolved, Hcode.
               rewrite (trace_bind_throw _ _ _ Hsnippet), !completion_requests_app.
               rewrite (never_completion_request _
                          (getContractDetails_never _ _ _ _ not_completion_request_get
                             not_completion_request_log)).
               rewrite (never_completion_request _
                          (getContractFunctionDetails_never _ _ _ _
                             not_completion_request_log)).
               apply (never_completion_request _
                        (getFunctionSourceCode_never _ _ _ _ not_completion_request_log)). }
        all: left; unfold asked, getResponseData;
          rewrite completion_requests_try_catch by reflexivity;
          unfold getResponseData_try;
          rewrite trace_bind, Hdetails, trace_bind, Hresolved, Hcode;
          rewrite bind_throw; cbn [trace fst]; rewrite !completion_requests_app;
          rewrite (never_completion_request _
                     (getContractDetails_never _ _ _ _ not_completion_request_get
                        not_completion_request_log));
          rewrite (never_completion_request _
                     (getContractFunctionDetails_never _ _ _ _
                        not_completion_request_log));
          reflexivity.
      + left. unfold asked, getResponseData.
        rewrite completion_requests_try_catch by reflexivity.
        unfold getResponseData_try.
        rewrite trace_bind, Hdetails, (trace_bind_throw _ _ _ Hresolved).
        rewrite !completion_requests_app.
        rewrite (never_completion_request _
                   (getContractDetails_never _ _ _ _ not_completion_request_get
                      not_completion_request_log)).
        apply (never_completion_request _
                 (getContractFunctionDetails_never _ _ _ _ not_completion_request_log)).
    - left. unfold asked, getResponseData.
      rewrite completion_requests_try_catch by reflexivity.
      unfold getResponseData_try. rewrite trace_bind, Hdetails. cbn. rewrite app_nil_r.
      apply (never_completion_request _
               (getContractDetails_never _ _ _ _ not_completion_request_get
                  not_completion_request_log)).
    - left. unfold asked, getResponseData.
      rewrite completion_requests_try_catch by reflexivity.
      unfold getResponseData_try. rewrite (trace_bind_throw _ _ _ Hdetails).
      apply (never_completion_request _
               (getContractDetails_never _ _ _ _ not_completion_request_get
                  not_completion_request_log)). }
  destruct Hquiet as [Hnone | (details & resolved & code & snippet & Hd & Hr & Hc & Hs)].
  - rewrite Hnone. cbn. split; [lia | intros; lia].
  - assert (Hasked := completion_requests_on_path _ _ _ _ _ _ Hd Hr Hc Hs).
    fold asked in Hasked. rewrite Hasked. cbn. split; [lia|].
    intros _. now exists details, resolved, code, snippet.
Qed.

(** X18.  The snippet that [getFunctionSourceCode] returns is never
    longer than the contract code, whatever the function name. *)
Theorem snippet_is_no_longer_than_source rt contractCode functionName snippet :
  outcome (getFunctionSourceCode rt contractCode functionName) = Ok snippet ->
  String.length snippet <= String.length contractCode.
Proof.
  intros Hout. rewrite outcome_getFunctionSourceCode in Hout.
  apply forEach_ok in Hout. cbn [append] in Hout. subst snippet.
  apply subsequence_length.
  rewrite <- (join_split contractCode "function") at 2 by discriminate.
  apply filter_subsequence_join.
Qed.

Lemma snippet_is_no_longer_than_source_witness :
  String.length " transfer(address to) { }  transfer(address to, uint256 value) { }"
  <= String.length Samples.overloads_source.
Proof.
  apply (snippet_is_no_longer_than_source Samples.plain_runtime
           Samples.overloads_source "transfer"). reflexivity.
Defined.

End CompletionMore.

(* ===================================================================== *)
(** ** The Lens profile endpoint: further properties *)
(* ===================================================================== *)

Module LensProfileMore.
Import Js LensProfile Observe EffFacts LensProfileFacts.
Local Open Scope string_scope.
Local Open Scope eff_scope.

Lemma get_prop_throws v name :
  (exists e, get_prop v name = Throw e) <-> nullish v.
Proof.
  unfold nullish. split.
  - intros [e H]. destruct v as [ | | | | | |fields]; cbn in H; try discriminate; auto.
    destruct (assoc name fields); discriminate.
  - intros [-> | ->]; eexists; reflexivity.
Qed.

(** When the lookup of the profile fails. *)
Lemma getDefaultProfileRequest_fails rt request :
  (exists e, outcome (getDefaultProfileRequest rt request) = Throw e)
  <-> match apollo_query rt (JObj [("request", request)]) with
      | Throw _ => True
      | Ok result =>
          nullish result
          \/ exists data, get_prop result "data" = Ok data /\ nullish data
      end.
Proof.
  unfold getDefaultProfileRequest. rewrite bind_emit. cbn [outcome snd].
  destruct (apollo_query rt (JObj [("request", request)])) as [result|e].
  - rewrite bind_lift_ok.
    destruct (get_prop result "data") as [data|e] eqn:Hdata.
    + rewrite bind_lift_ok. cbn [outcome lift snd]. rewrite get_prop_throws. split.
      * intros Hnull. right. now exists data.
      * intros [Hnull | (data' & [= <-] & Hnull)]; [|exact Hnull].
        destruct (proj2 (get_prop_throws result "data") Hnull) as [e He].
        rewrite Hdata in He. discriminate.
    + cbn. split.
      * intros _. left. apply (proj1 (get_prop_throws result "data")). now exists e.
      * intros _. now exists e.
  - cbn. split; [trivial | intros _; now exists e].
Qed.

(** X10.  The handler of the profile endpoint never throws and answers
    at most once.  A method other than GET is answered 405 with the
    [Allow] header, and the profile service is not asked; a GET asks the
    profile service once, for the [walletAddress] of the query. *)
Theorem profile_handler_dispatch rt req :
  outcome (handler rt req) = Ok tt
  /\ length (responses (trace (handler rt req))) <= 1
  /\ (method req <> "GET" ->
      handler rt req
      = ([EvSetHeader "Allow" (JArr [JStr "GET"]);
          EvRespond 405 (JStr ("Method " ++ method req ++ " Not Allowed"))],
         Ok tt))
  /\ (method req = "GET" ->
      profile_queries (trace (handler rt req))
      = [JObj [("request", JObj [("ethereumAddress", walletAddress req)])]]).
Proof.
  unfold handler. destruct (String.eqb_spec (method req) "GET") as [Hget|Hother].
  - split; [reflexivity|]. split.
    + cbn [detached trace fst].
      destruct (profile_responses rt req) as [-> | ->]; cbn; lia.
    + split; [contradiction|]. intros _. cbn [detached trace fst].
      destruct (outcome (getDefaultProfileRequest rt
                           (JObj [("ethereumAddress", walletAddress req)])))
        as [result|e] eqn:Hlookup.
      * now rewrite (getDefaultProfile_completed _ _ _ Hlookup).
      * unfold getDefaultProfile.
        now rewrite (trace_bind_throw _ _ _ Hlookup), getDefaultProfileRequest_trace.
  - split; [reflexivity|]. split; [cbn; lia|]. split; [reflexivity | contradiction].
Qed.

(** X11.  A GET is left without any response exactly when the lookup
    fails: the query is rejected, or its result is [null] or
    [undefined], or the result has no [data].  The handler does not
    report it.  In every other case, also when there is no default
    profile, the answer is 200. *)
Theorem profile_request_unanswered rt req :
  method req = "GET" ->
  let answer :=
    apollo_query rt
      (JObj [("request", JObj [("ethereumAddress", walletAddress req)])]) in
  (responses (trace (handler rt req)) = []
   <-> match answer with
       | Throw _ => True
       | Ok result =>
           nullish result
           \/ exists data, get_prop result "data" = Ok data /\ nullish data
       end)
  /\ (responses (trace (handler rt req)) <> [] ->
      responses (trace (handler rt req)) = [(200, expected_body (walletAddress req))]).
Proof.
  intros Hget answer. subst answer.
  assert (Hrun : trace (handler rt req) = trace (getDefaultProfile rt req))
    by (unfold handler; rewrite Hget; reflexivity).
  rewrite Hrun, <- getDefaultProfileRequest_fails. split.
  - destruct (outcome (getDefaultProfileRequest rt
                         (JObj [("ethereumAddress", walletAddress req)])))
      as [result|e] eqn:Hlookup.
    + rewrite (getDefaultProfile_completed _ _ _ Hlookup). cbn.
      split; [discriminate | intros [e He]; discriminate].
    + rewrite (getDefaultProfile_failed _ _ _ Hlookup).
      split; [intros _; now exists e | reflexivity].
  - destruct (profile_responses rt req) as [-> | ->]; [contradiction | reflexivity].
Qed.

Lemma profile_request_unanswered_witness :
  responses (trace (handler (Samples.profile_service (Ok (JObj [("data", JNull)])))
                      (Samples.profile_request "0xd19b"))) = [].
Proof.
  destruct (profile_request_unanswered
              (Samples.profile_service (Ok (JObj [("data", JNull)])))
              (Samples.profile_request "0xd19b")) as [Hiff _]; [reflexivity|].
  apply Hiff. right. exists JNull. split; [reflexivity | left; reflexivity].
Defined.

End LensProfileMore.

(* ===================================================================== *)
(** ** The wallet plugin: further properties *)
(* ===================================================================== *)

Module SnapMore.
Import Js Snap SnapRpc SnapParts Observe EffFacts StringFacts SnapFacts.
Local Open Scope string_scope.
Local Open Scope eff_scope.

(* --------------------------------------------------------------------- *)
(** *** The RPC handler *)
(* --------------------------------------------------------------------- *)

Lemma forward_asked wallet request state :
  asked (forward wallet request state) = [request].
Proof. unfold forward. now destruct (snap_request wallet request state). Qed.

Lemma forward_answer wallet request state :
  (result (forward wallet request state), held (forward wallet request state))
  = snap_request wallet request state.
Proof. unfold forward. now destruct (snap_request wallet request state). Qed.

(** X12.  [setData] passes to the wallet one update whose new state is
    the object [{worldId}] made of the [worldId] of the params: nothing
    else of the params is passed on, so two [setData] requests with the
    same [worldId] run alike.  [getData] passes one get, whatever its
    params.  Both return what the wallet answers. *)
Theorem setData_forwards_worldId_alone wallet state params worldId :
  get_prop params "worldId" = Ok worldId ->
  let stored := onRpcRequest wallet state (setData params) in
  asked stored = [Update (JObj [("worldId", worldId)])]
  /\ (result stored, held stored)
     = snap_request wallet (Update (JObj [("worldId", worldId)])) state
  /\ (forall others,
        get_prop others "worldId" = Ok worldId ->
        onRpcRequest wallet state (setData others) = stored)
  /\ (forall anything,
        asked (onRpcRequest wallet state (getData anything)) = [Get]
        /\ (result (onRpcRequest wallet state (getData anything)),
            held (onRpcRequest wallet state (getData anything)))
           = snap_request wallet Get state).
Proof.
  intros Hparams stored.
  assert (Hrun : forall p, get_prop p "worldId" = Ok worldId ->
                           onRpcRequest wallet state (setData p)
                           = forward wallet (Update (JObj [("worldId", worldId)])) state).
  { intros p Hp. unfold onRpcRequest. cbn [method SnapRpc.params setData String.eqb].
    cbn. now rewrite Hp. }
  subst stored. rewrite (Hrun params Hparams).
  split; [apply forward_asked|]. split; [apply forward_answer|]. split.
  - intros others Hothers. exact (Hrun others Hothers).
  - intros anything. split; [apply forward_asked | apply forward_answer].
Qed.

Lemma setData_forwards_worldId_alone_witness :
  asked (onRpcRequest {| snap_request := fun _ state => (Ok JNull, state) |} JNull
           (setData (JObj [("worldId", JStr "0x2a"); ("note", JStr "dropped")])))
  = [Update (JObj [("worldId", JStr "0x2a")])].
Proof.
  apply (setData_forwards_worldId_alone
           {| snap_request := fun _ state => (Ok JNull, state) |} JNull
           (JObj [("worldId", JStr "0x2a"); ("note", JStr "dropped")]) (JStr "0x2a")).
  reflexivity.
Defined.

(** X13.  [onRpcRequest] asks the wallet at most once.  It does not ask
    at all exactly when the method is neither [setData] nor [getData],
    and then it throws "Method not found.", or when [setData] comes
    with params that are [null] or [undefined], and then reading the
    [worldId] throws; in both cases the handler throws with the wallet
    holding what it held. *)
Theorem rejected_request_does_not_reach_wallet wallet state request :
  let run := onRpcRequest wallet state request in
  length (asked run) <= 1
  /\ (asked run = [] <->
      (method request <> "setData" /\ method request <> "getData")
      \/ (method request = "setData" /\ nullish (params request)))
  /\ (asked run = [] -> held run = state /\ exists e, result run = Throw e)
  /\ (method request <> "setData" -> method request <> "getData" ->
      run = {| asked := []; result := Throw (Error "Method not found."); held := state |}).
Proof.
  intros run. subst run. unfold onRpcRequest.
  destruct (String.eqb_spec (method request) "setData") as [Hset|Hset].
  - destruct (get_prop (params request) "worldId") as [worldId|e] eqn:Hparams.
    + rewrite forward_asked. cbn [length]. split; [lia|]. split.
      * split; [discriminate|].
        intros [[Hno _] | [_ Hnull]]; [contradiction|].
        apply LensProfileMore.get_prop_throws with (name := "worldId") in Hnull.
        destruct Hnull as [e He]. rewrite Hparams in He. discriminate.
      * split; [discriminate | intros; contradiction].
    + cbn. split; [lia|]. split.
      * split; [|reflexivity]. intros _. right. split; [exact Hset|].
        apply (proj1 (LensProfileMore.get_prop_throws (params request) "worldId")).
        now exists e.
      * split; [|intros; contradiction]. intros _. split; [reflexivity | now exists e].
  - destruct (String.eqb_spec (method request) "getData") as [Hget|Hget].
    + rewrite forward_asked. cbn [length]. split; [lia|]. split.
      * split; [discriminate|]. intros [[_ Hno] | [Hyes _]]; contradiction.
      * split; [discriminate | intros; contradiction].
    + cbn. split; [lia|]. split.
      * split; [|reflexivity]. intros _. now left.
      * split; [|reflexivity]. intros _. split; [reflexivity | eexists; reflexivity].
Qed.

(* --------------------------------------------------------------------- *)
(** *** The lookups *)
(* --------------------------------------------------------------------- *)

Lemma fetch_json_returns host url v :
  outcome (fetch_json host url) = Ok v <->
  exists response,
    fetch host url = Ok response /\ ok response = true /\ json response = Ok v.
Proof.
  rewrite fetch_json_outcome. split.
  - destruct (fetch host url) as [response|e]; [|discriminate].
    destruct (ok response) eqn:Hok; [|discriminate].
    intros Hjson. now exists response.
  - intros (response & -> & -> & Hjson). exact Hjson.
Qed.

(** X14.  Each of the four lookups of the plugin makes one request, to
    an address of the application's API.  It returns a value only from
    a response that is ok and has a JSON body, and the value is that
    body; a response that is not ok makes it throw "HTTP error!" with
    the status, whatever the body. *)
Theorem lookup_needs_ok_response host walletAddress contractAddress inputData chainId lookup :
  In lookup (all_lookups host walletAddress contractAddress inputData chainId) ->
  exists url,
    trace lookup = [EvFetch url]
    /\ prefix baseURL url = true
    /\ (forall v,
          outcome lookup = Ok v <->
          exists response,
            fetch host url = Ok response /\ ok response = true
            /\ json response = Ok v)
    /\ (forall response,
          fetch host url = Ok response -> ok response = false ->
          outcome lookup
          = Throw (Error ("HTTP error! Status: " ++ nat_to_string (status response)))).
Proof.
  intros Hin.
  assert (Hurl : exists rest, lookup = fetch_json host (baseURL ++ rest)).
  { cbn in Hin. destruct Hin as [<-|[<-|[<-|[<-|[]]]]]; eexists; reflexivity. }
  destruct Hurl as [rest ->]. exists (baseURL ++ rest).
  split; [apply fetch_json_trace|]. split; [apply prefix_append|]. split.
  - intros v. apply fetch_json_returns.
  - intros response Hfetch Hok. now rewrite fetch_json_outcome, Hfetch, Hok.
Qed.

Lemma lookup_needs_ok_response_witness :
  outcome (getGptCompletion
             (Samples.wallet None JNull (Ok Samples.server_error)) "0xABC" "0xa9059cbb" "1")
  = Throw (Error "HTTP error! Status: 500").
Proof.
  destruct (lookup_needs_ok_response
              (Samples.wallet None JNull (Ok Samples.server_error))
              "0xd19b" "0xABC" "0xa9059cbb" "1"
              (getGptCompletion
                 (Samples.wallet None JNull (Ok Samples.server_error))
                 "0xABC" "0xa9059cbb" "1"))
    as (url & Htrace & _ & _ & Hfail).
  - right. right. right. left. reflexivity.
  - injection Htrace as <-. apply (Hfail Samples.server_error); reflexivity.
Defined.

(* --------------------------------------------------------------------- *)
(** *** The guards of [onTransaction] *)
(* --------------------------------------------------------------------- *)

Lemma Promise_all_three_lookups host (p1 p2 p3 : Eff JsVal) u1 u2 u3 :
  trace p1 = [EvFetch u1] -> trace p2 = [EvFetch u2] -> trace p3 = [EvFetch u3] ->
  forall A (k : list JsVal -> Eff A),
    (forall values, trace (k values) = []) ->
    lookups (trace (bind (Promise_all (settles_at host) [p1; p2; p3]) k)) = [u1; u2; u3].
Proof.
  intros H1 H2 H3 A k Hk.
  destruct (outcome (Promise_all (settles_at host) [p1; p2; p3])) as [values|e] eqn:Hall.
  - rewrite (trace_bind_ok _ _ _ Hall), Promise_all_trace, Hk. cbn.
    now rewrite H1, H2, H3.
  - rewrite (trace_bind_throw _ _ _ Hall), Promise_all_trace. cbn.
    now rewrite H1, H2, H3.
Qed.

(** X15.  [onTransaction] makes a lookup only when [worldId] can be
    read, the stored state is truthy, the transaction has a sender, a
    recipient and data, and the chain id is not empty; then it makes the
    three lookups, for the part of the chain id after its first colon.
    With a truthy state and a missing parameter it throws "Missing
    required parameters"; with a falsy state it returns the "Not a
    unique human" panel; each without any lookup. *)
Theorem lookups_need_state_and_parameters host chainId transaction :
  let run := onTransaction host chainId transaction in
  let complete :=
    negb (missing (from transaction) || missing (to transaction)
          || missing (data transaction) || String.eqb chainId "") in
  (forall worldId,
     global host "worldId" = Some worldId ->
     truthy (stored_state host) = true -> complete = true ->
     lookups (trace run)
     = lookup_urls (template (from transaction)) (template (to transaction))
         (template (data transaction))
         (template (nth_error (split chainId ":") 1)))
  /\ (forall worldId,
        global host "worldId" = Some worldId ->
        truthy (stored_state host) = true -> complete = false ->
        lookups (trace run) = []
        /\ outcome run = Throw (Error "Missing required parameters"))
  /\ (forall worldId,
        global host "worldId" = Some worldId ->
        truthy (stored_state host) = false ->
        lookups (trace run) = [] /\ outcome run = Ok not_human)
  /\ (0 < length (lookups (trace run)) ->
      global host "worldId" <> None
      /\ truthy (stored_state host) = true /\ complete = true).
Proof.
  intros run complete. subst run complete.
  rewrite onTransaction_steps, bind_emit. cbn [trace outcome fst snd lookups].
  unfold read_undeclared.
  destruct (global host "worldId") as [worldId|].
  2: { cbn. repeat split; try discriminate; intros; lia. }
  rewrite bind_lift_ok, bind_emit. cbn [trace outcome fst snd lookups].
  destruct (truthy (stored_state host)); cbn [negb].
  2: { cbn. repeat split; try discriminate; intros; lia. }
  destruct (missing (from transaction) || missing (to transaction)
            || missing (data transaction) || String.eqb chainId ""); cbn [negb].
  { cbn. repeat split; try discriminate; intros; lia. }
  cbv zeta.
  assert (Hurls :
    lookups (trace (Promise_all (settles_at host)
       [ getLensProfile host (template (from transaction));
         getLensApprovedAddressList host (template (from transaction))
           (template (to transaction)) (template (data transaction))
           (template (nth_error (split chainId ":") 1));
         getGptCompletion host (template (to transaction)) (template (data transaction))
           (template (nth_error (split chainId ":") 1)) ] ;;;
       ret not_human))
    = lookup_urls (template (from transaction)) (template (to transaction))
        (template (data transaction)) (template (nth_error (split chainId ":") 1))).
  { apply Promise_all_three_lookups; try apply fetch_json_trace. reflexivity. }
  rewrite Hurls. repeat split; try discriminate; try reflexivity.
Qed.

(* --------------------------------------------------------------------- *)
(** *** The chain id *)
(* --------------------------------------------------------------------- *)

Lemma split_from_absent sep :
  forall s cur,
    is_substring sep s = false -> split_from sep 0 cur s = [cur ++ s].
Proof.
  induction s as [|c s IH]; intros cur Habsent.
  - cbn. now rewrite append_nil_r.
  - cbn [is_substring] in Habsent. apply orb_false_iff in Habsent as [Hhere Hrest].
    cbn [split_from]. rewrite Hhere, (IH _ Hrest), append_assoc. reflexivity.
Qed.

(** Without the separator there is one piece, the text. *)
Lemma split_absent s sep :
  sep <> "" -> is_substring sep s = false -> split s sep = [s].
Proof.
  intros Hsep Habsent. unfold split. destruct sep as [|a sep']; [congruence|].
  now rewrite split_from_absent.
Qed.

(** The first piece ends at the first occurrence of a separator of one
    character. *)
Lemma split_from_first c before after :
  forall cur,
    is_substring (String c "") before = false ->
    split_from (String c "") 0 cur (before ++ String c after)
    = (cur ++ before) :: split_from (String c "") 0 "" after.
Proof.
  induction before as [|x before IH]; intros cur Habsent.
  - pose proof (prefix_append (String c "") after) as Hhere. cbn [append] in Hhere.
    cbn [append split_from]. rewrite Hhere. cbn. now rewrite append_nil_r.
  - cbn [is_substring] in Habsent. apply orb_false_iff in Habsent as [Hhere Hrest].
    cbn [append split_from].
    assert (Hno : prefix (String c "") (String x (before ++ String c after)) = false).
    { cbn in Hhere |- *. destruct (Ascii.ascii_dec c x); [|reflexivity].
      now destruct before. }
    rewrite Hno, (IH _ Hrest), append_assoc. reflexivity.
Qed.

Lemma chain_reference namespace reference :
  is_substring ":" namespace = false ->
  is_substring ":" reference = false ->
  nth_error (split (namespace ++ ":" ++ reference) ":") 1 = Some reference.
Proof.
  intros Hns Href. unfold split.
  change (namespace ++ ":" ++ reference) with (namespace ++ String ":" reference).
  rewrite (split_from_first _ _ _ "" Hns), (split_from_absent _ _ _ Href).
  reflexivity.
Qed.

Lemma onTransaction_lookup_urls host chainId transaction worldId :
  global host "worldId" = Some worldId ->
  truthy (stored_state host) = true ->
  missing (from transaction) || missing (to transaction)
  || missing (data transaction) || String.eqb chainId "" = false ->
  lookups (trace (onTransaction host chainId transaction))
  = lookup_urls (template (from transaction)) (template (to transaction))
      (template (data transaction)) (template (nth_error (split chainId ":") 1)).
Proof.
  intros Hglobal Hstate Hcomplete.
  rewrite onTransaction_steps, bind_emit. cbn [trace outcome fst snd lookups].
  unfold read_undeclared. rewrite Hglobal, bind_lift_ok, bind_emit.
  cbn [trace outcome fst snd lookups]. rewrite Hstate, Hcomplete. cbn [negb]. cbv zeta.
  apply Promise_all_three_lookups; try apply fetch_json_trace. reflexivity.
Qed.

(** X16.  The lookups carry the reference of the chain id, the part
    after the colon of [namespace:reference]; for a chain id without a
    colon they carry the text [undefined] in its place. *)
Theorem lookups_carry_chain_reference host transaction worldId namespace reference :
  global host "worldId" = Some worldId ->
  truthy (stored_state host) = true ->
  missing (from transaction) || missing (to transaction)
  || missing (data transaction) = false ->
  is_substring ":" namespace = false ->
  is_substring ":" reference = false ->
  lookups (trace (onTransaction host (namespace ++ ":" ++ reference) transaction))
  = lookup_urls (template (from transaction)) (template (to transaction))
      (template (data transaction)) reference
  /\ (namespace <> "" ->
      lookups (trace (onTransaction host namespace transaction))
      = lookup_urls (template (from transaction)) (template (to transaction))
          (template (data transaction)) "undefined").
Proof.
  intros Hglobal Hstate Hparams Hns Href. split.
  - rewrite (onTransaction_lookup_urls _ _ _ _ Hglobal Hstate).
    + now rewrite (chain_reference _ _ Hns Href).
    + rewrite Hparams. cbn [orb]. apply String.eqb_neq.
      destruct namespace; discriminate.
  - intros Hnonempty. rewrite (onTransaction_lookup_urls _ _ _ _ Hglobal Hstate).
    + now rewrite (split_absent _ ":" ltac:(discriminate) Hns).
    + rewrite Hparams. cbn [orb]. now apply String.eqb_neq.
Qed.

Lemma lookups_carry_chain_reference_witness :
  lookups (trace (onTransaction
                    (Samples.wallet (Some JUndefined) Samples.verified_state
                                    (Ok Samples.server_error))
                    "eip155:137" Samples.pending))
  = lookup_urls "0xd19B53464bBD3289823b278efb0461a903271004" "0xABC" "0xa9059cbb" "137".
Proof.
  apply (lookups_carry_chain_reference
           (Samples.wallet (Some JUndefined) Samples.verified_state
                           (Ok Samples.server_error))
           Samples.pending JUndefined "eip155" "137"); reflexivity.
Defined.

End SnapMore.
